(** * Diagnostics framework: registry, runner and result model

    A shallow embedding of [diagnostics_framework/models.py],
    [diagnostics_framework/registry.py] and [diagnostics_framework/runner.py],
    followed by the properties of the registry, of the runner's fault
    handling and of the summary counters.

    Conventions of the embedding.
    - A Python dictionary keyed by system name is a [gmap string _]; the
      per-system lists keep registration order.
    - The registry singleton is a value of type [DiagnosticsRegistry]; each
      mutating method is a function returning the registry after the call.
    - Code that may raise, and code that reads the clock, lives in the monad
      [M]: a computation takes the interpreter state and gives back either a
      returned value or the exception in flight, with the state after it.
    - Registered callables are arbitrary computations of [M] over the data
      value; they do not touch the registry. *)

From stdpp Require Import base option list gmap strings pretty.
From Stdlib Require Import ZArith Lia.

(** ** Python values *)

(** What [typing.Any] ranges over in this program: the data handed to the
    callables and the values stored under [details]. Objects the core never
    looks into (data frames, figures) are [PyObject] with their class name. *)
#[local] Unset Elimination Schemes.
Inductive Any : Type :=
| PyNone
| PyBool (b : bool)
| PyInt (z : Z)
| PyStr (s : string)
| PyList (l : list Any)
| PyDict (d : list (string * Any))
| PyObject (class_name : string) (ident : nat).
#[local] Set Elimination Schemes.

(** Exception classes. [except Exception] catches the classes derived from
    [Exception]; the three exit signals derive from [BaseException] only. *)
Inductive ExcClass : Type :=
| SystemExit
| KeyboardInterrupt
| GeneratorExit
| ExceptionSubclass (class_name : string).

Definition ValueError : ExcClass := ExceptionSubclass "ValueError".

(** An exception object: its class, the text [str(e)] gives when it
    returns, and the exception that taking [str(e)] raises instead when it
    does not (its [__str__] raises, or returns something that is no
    string). *)
#[local] Unset Elimination Schemes.
Inductive PyExc : Type :=
| BuildExc (exc_class : ExcClass) (exc_str : string) (exc_str_raises : option PyExc).
#[local] Set Elimination Schemes.

Definition exc_class (e : PyExc) : ExcClass :=
  match e with BuildExc c _ _ => c end.

Definition exc_str (e : PyExc) : string :=
  match e with BuildExc _ s _ => s end.

Definition exc_str_raises (e : PyExc) : option PyExc :=
  match e with BuildExc _ _ r => r end.

(** An exception whose [__str__] returns [text]. *)
Definition mkExc (c : ExcClass) (text : string) : PyExc := BuildExc c text None.

(** [isinstance(e, Exception)] *)
Definition isinstance_Exception (e : PyExc) : bool :=
  match exc_class e with
  | ExceptionSubclass _ => true
  | _ => false
  end.

(** ** models.py *)

Module models.

Inductive DiagnosticStatus : Type := PASS | FAIL | WARNING | ERROR.

#[export] Instance DiagnosticStatus_eq_dec : EqDecision DiagnosticStatus.
Proof. solve_decision. Defined.

(** The enumeration's values, [DiagnosticStatus.X.value]. *)
Definition value (s : DiagnosticStatus) : string :=
  match s with
  | PASS => "pass"
  | FAIL => "fail"
  | WARNING => "warning"
  | ERROR => "error"
  end.

Definition datetime : Type := Z.

Record DiagnosticResult : Type := mkResult {
  test_name : string;
  status : DiagnosticStatus;
  message : string;
  details : list (string * Any);
  timestamp : datetime
}.

Record SystemInfo : Type := mkSystemInfo {
  sys_name : string;
  sys_description : string;
  sys_version : string
}.

End models.
Export models.

(** ** The interpreter state and the monad of the runner *)

(** The state read by [datetime.now()] and [traceback.format_exc()]: the
    successive readings of the wall clock, how many were taken so far, and
    the rendering of the trace of an exception being handled. *)
Record World : Type := mkWorld {
  wall : nat → datetime;
  reads : nat;
  format_exc : PyExc → string
}.

Inductive Outcome (A : Type) : Type :=
| Return (a : A)
| Raise (e : PyExc).
Arguments Return {A} a.
Arguments Raise {A} e.

Definition M (A : Type) : Type := World → Outcome A * World.

Definition ret {A} (a : A) : M A := λ w, (Return a, w).

Definition raise {A} (e : PyExc) : M A := λ w, (Raise e, w).

Definition bind {A B} (m : M A) (k : A → M B) : M B :=
  λ w, match m w with
       | (Return a, w') => k a w'
       | (Raise e, w') => (Raise e, w')
       end.

Notation "'let!' x ':=' m 'in' k" := (bind m (λ x, k))
  (at level 10, x name, m at level 100, k at level 200).

(** [try: body  except Exception as e: handler e]: an exception that is not
    an instance of [Exception] passes through. *)
Definition try_except_Exception {A} (body : M A) (handler : PyExc → M A) : M A :=
  λ w, match body w with
       | (Return a, w') => (Return a, w')
       | (Raise e, w') =>
           if isinstance_Exception e then handler e w' else (Raise e, w')
       end.

(** [datetime.now()] *)
Definition now : M datetime :=
  λ w, (Return (wall w (reads w)),
        {| wall := wall w; reads := S (reads w); format_exc := format_exc w |}).

(** [str(e)], as the f-string [f"{e}"] evaluates it: the text, or the
    exception that [__str__] raises. *)
Definition str_of_exception (e : PyExc) : M string :=
  match exc_str_raises e with
  | None => ret (exc_str e)
  | Some e' => raise e'
  end.

(** [traceback.format_exc()] inside the handler of [e] *)
Definition traceback_format_exc (e : PyExc) : M string :=
  λ w, (Return (format_exc w e), w).

(** The constructor [DiagnosticResult(test_name=, status=, message=,
    details=)]: the default factory of [timestamp] reads the clock. Where the
    caller leaves [details] out, its default is the empty dictionary. *)
Definition DiagnosticResult_new (test_name : string) (status : DiagnosticStatus)
    (message : string) (details : list (string * Any)) : M DiagnosticResult :=
  let! ts := now in
  ret (mkResult test_name status message details ts).

(** What a registered callable may hand back: a [DiagnosticResult] instance
    or any other Python value. *)
Inductive PyReturn : Type :=
| IsResult (r : DiagnosticResult)
| IsOther (v : Any).

Definition Callable : Type := Any → M PyReturn.

(** [isinstance(result, DiagnosticResult)] *)
Definition isinstance_DiagnosticResult (v : PyReturn) : bool :=
  match v with
  | IsResult _ => true
  | IsOther _ => false
  end.

Module entries.

Record TestInfo : Type := mkTestInfo {
  test_info_name : string;
  test_info_description : string;
  test_info_fn : Callable
}.

Record PlotInfo : Type := mkPlotInfo {
  plot_info_name : string;
  plot_info_description : string;
  plot_info_fn : Callable
}.

Record ReportInfo : Type := mkReportInfo {
  report_info_name : string;
  report_info_description : string;
  report_info_fn : Callable
}.

End entries.
Export entries.

Module summary.

Record DiagnosticSummary : Type := mkSummary {
  system_name : string;
  results : list DiagnosticResult;
  summary_timestamp : datetime
}.

(** [sum(1 for r in self.results if r.status == st)] *)
Definition count_status (st : DiagnosticStatus) (rs : list DiagnosticResult) : nat :=
  sum_list ((λ _, 1) <$> filter (λ r, status r = st) rs).

Definition pass_count (s : DiagnosticSummary) : nat := count_status PASS (results s).
Definition fail_count (s : DiagnosticSummary) : nat := count_status FAIL (results s).
Definition warning_count (s : DiagnosticSummary) : nat := count_status WARNING (results s).
Definition error_count (s : DiagnosticSummary) : nat := count_status ERROR (results s).

(** [summary.results.append(r)]: the list held by the summary is mutable. *)
Definition results_append (s : DiagnosticSummary) (r : DiagnosticResult) : DiagnosticSummary :=
  {| system_name := system_name s;
     results := results s ++ [r];
     summary_timestamp := summary_timestamp s |}.

End summary.
Export summary.

(** ** registry.py *)

Module registry.

Record DiagnosticsRegistry : Type := mkRegistry {
  _systems : gmap string SystemInfo;
  _tests : gmap string (list TestInfo);
  _plots : gmap string (list PlotInfo);
  _reports : gmap string (list ReportInfo)
}.

(** The instance built by the first [DiagnosticsRegistry()]. *)
Definition new : DiagnosticsRegistry :=
  {| _systems := ∅; _tests := ∅; _plots := ∅; _reports := ∅ |}.

(** [d.setdefault(k, [])], as the dictionary after the call. *)
Definition setdefault_nil {A} (d : gmap string (list A)) (k : string) : gmap string (list A) :=
  match d !! k with
  | Some _ => d
  | None => <[k := []]> d
  end.

(** [d.setdefault(k, []).append(x)], as the dictionary after the call. *)
Definition setdefault_append {A} (d : gmap string (list A)) (k : string) (x : A)
  : gmap string (list A) :=
  match d !! k with
  | Some l => <[k := l ++ [x]]> d
  | None => <[k := [] ++ [x]]> d
  end.

(** [d.get(k, [])] copied by [list(...)]. *)
Definition get_list {A} (d : gmap string (list A)) (k : string) : list A :=
  default [] (d !! k).

Definition add_system (self : DiagnosticsRegistry)
    (name description version : string) : DiagnosticsRegistry :=
  {| _systems := <[name := mkSystemInfo name description version]> (_systems self);
     _tests := setdefault_nil (_tests self) name;
     _plots := setdefault_nil (_plots self) name;
     _reports := setdefault_nil (_reports self) name |}.

Definition add_test (self : DiagnosticsRegistry) (system : string) (test_info : TestInfo)
  : DiagnosticsRegistry :=
  {| _systems := _systems self;
     _tests := setdefault_append (_tests self) system test_info;
     _plots := _plots self;
     _reports := _reports self |}.

Definition add_plot (self : DiagnosticsRegistry) (system : string) (plot_info : PlotInfo)
  : DiagnosticsRegistry :=
  {| _systems := _systems self;
     _tests := _tests self;
     _plots := setdefault_append (_plots self) system plot_info;
     _reports := _reports self |}.

Definition add_report (self : DiagnosticsRegistry) (system : string) (report_info : ReportInfo)
  : DiagnosticsRegistry :=
  {| _systems := _systems self;
     _tests := _tests self;
     _plots := _plots self;
     _reports := setdefault_append (_reports self) system report_info |}.

Definition get_systems (self : DiagnosticsRegistry) : gmap string SystemInfo :=
  _systems self.

Definition get_tests (self : DiagnosticsRegistry) (system : string) : list TestInfo :=
  get_list (_tests self) system.

Definition get_plots (self : DiagnosticsRegistry) (system : string) : list PlotInfo :=
  get_list (_plots self) system.

Definition get_reports (self : DiagnosticsRegistry) (system : string) : list ReportInfo :=
  get_list (_reports self) system.

(** The registering decorators, by their effect on the registry; each hands
    the decorated object back unchanged. *)
Definition register_system (self : DiagnosticsRegistry) (name description version : string)
  : DiagnosticsRegistry :=
  add_system self name description version.

Definition register_test (self : DiagnosticsRegistry) (system name description : string)
    (fn : Callable) : DiagnosticsRegistry :=
  add_test self system (mkTestInfo name description fn).

Definition register_plot (self : DiagnosticsRegistry) (system name description : string)
    (fn : Callable) : DiagnosticsRegistry :=
  add_plot self system (mkPlotInfo name description fn).

Definition register_report (self : DiagnosticsRegistry) (system name description : string)
    (fn : Callable) : DiagnosticsRegistry :=
  add_report self system (mkReportInfo name description fn).

(** A registration call, and the registry reached from [new] by a sequence
    of them. *)
Inductive RegCall : Type :=
| AddSystem (name description version : string)
| AddTest (system : string) (test_info : TestInfo)
| AddPlot (system : string) (plot_info : PlotInfo)
| AddReport (system : string) (report_info : ReportInfo).

Definition call_system (c : RegCall) : string :=
  match c with
  | AddSystem name _ _ => name
  | AddTest system _ => system
  | AddPlot system _ => system
  | AddReport system _ => system
  end.

Definition do_call (self : DiagnosticsRegistry) (c : RegCall) : DiagnosticsRegistry :=
  match c with
  | AddSystem name description version => add_system self name description version
  | AddTest system test_info => add_test self system test_info
  | AddPlot system plot_info => add_plot self system plot_info
  | AddReport system report_info => add_report self system report_info
  end.

Definition do_calls (self : DiagnosticsRegistry) (cs : list RegCall) : DiagnosticsRegistry :=
  foldl do_call self cs.

End registry.
Export registry.

(** ** runner.py *)

Module runner.

(** One iteration of the loop of [run_diagnostics]: the [try] statement,
    giving the list [results] after it. The arguments of the constructor
    call in the handler are evaluated in order, the f-string first: when
    [str(e)] raises, the exception leaves the handler and the loop. *)
Definition run_test (test_info : TestInfo) (data : Any) (results : list DiagnosticResult)
  : M (list DiagnosticResult) :=
  try_except_Exception
    (let! result := test_info_fn test_info data in
     match result with
     | IsResult r => ret (results ++ [r])
     | IsOther _ =>
         let! r := DiagnosticResult_new
                     (test_info_name test_info)
                     ERROR
                     ("Test '" +:+ test_info_name test_info
                      +:+ "' did not return a DiagnosticResult.")
                     [] in
         ret (results ++ [r])
     end)
    (λ e,
     let! text := str_of_exception e in
     let! tb := traceback_format_exc e in
     let! r := DiagnosticResult_new
                 (test_info_name test_info)
                 ERROR
                 ("Test raised an exception: " +:+ text)
                 [("traceback", PyStr tb)] in
     ret (results ++ [r])).

(** [for test_info in tests: ...] *)
Fixpoint run_tests (tests : list TestInfo) (data : Any) (results : list DiagnosticResult)
  : M (list DiagnosticResult) :=
  match tests with
  | [] => ret results
  | test_info :: tests' =>
      let! results' := run_test test_info data results in
      run_tests tests' data results'
  end.

Definition run_diagnostics (registry : DiagnosticsRegistry) (system_name : string) (data : Any)
  : M DiagnosticSummary :=
  let tests := get_tests registry system_name in
  let! results := run_tests tests data [] in
  let! ts := now in
  ret {| system_name := system_name; results := results; summary_timestamp := ts |}.

Definition plot_not_found (system_name plot_name : string) : PyExc :=
  mkExc ValueError
    ("Plot '" +:+ plot_name +:+ "' not found for system '" +:+ system_name +:+ "'.").

Definition report_not_found (system_name report_name : string) : PyExc :=
  mkExc ValueError
    ("Report '" +:+ report_name +:+ "' not found for system '" +:+ system_name +:+ "'.").

(** The loop of [generate_plot]: the first entry with the name decides. *)
Fixpoint search_plots (plots : list PlotInfo) (plot_name : string) (data : Any)
    (otherwise : M PyReturn) : M PyReturn :=
  match plots with
  | [] => otherwise
  | plot_info :: plots' =>
      if String.eqb (plot_info_name plot_info) plot_name
      then plot_info_fn plot_info data
      else search_plots plots' plot_name data otherwise
  end.

Definition generate_plot (registry : DiagnosticsRegistry) (system_name plot_name : string)
    (data : Any) : M PyReturn :=
  let plots := get_plots registry system_name in
  search_plots plots plot_name data (raise (plot_not_found system_name plot_name)).

Fixpoint search_reports (reports : list ReportInfo) (report_name : string) (data : Any)
    (otherwise : M PyReturn) : M PyReturn :=
  match reports with
  | [] => otherwise
  | report_info :: reports' =>
      if String.eqb (report_info_name report_info) report_name
      then report_info_fn report_info data
      else search_reports reports' report_name data otherwise
  end.

Definition generate_report (registry : DiagnosticsRegistry) (system_name report_name : string)
    (data : Any) : M PyReturn :=
  let reports := get_reports registry system_name in
  search_reports reports report_name data (raise (report_not_found system_name report_name)).

End runner.
Export runner.

(** ** Vocabulary of the statements *)

(** The world after one reading of the clock. *)
Definition tick (w : World) : World := (now w).2.

(** The handler of the runner turns [e] into a result: [e] is an instance
    of [Exception] and [str(e)] returns. *)
Definition handled (e : PyExc) : Prop :=
  isinstance_Exception e = true ∧ exc_str_raises e = None.

(** The callable of [test_info], run on [data], raises nothing but
    exceptions that the handler turns into a result. *)
Definition only_raises_handled (data : Any) (test_info : TestInfo) : Prop :=
  ∀ w e w', test_info_fn test_info data w = (Raise e, w') → handled e.

(** [recorded data test_info r]: [r] is what one run of [test_info] on
    [data] leaves in the result list. Either the callable returned [r]
    itself, or it returned something else, or it raised an [Exception]; in
    the last two cases [r] is built by the runner, in the last one from
    the text that [str(e)] returned. *)
Inductive recorded (data : Any) (test_info : TestInfo) : DiagnosticResult → Prop :=
| recorded_verbatim (w w' : World) (r : DiagnosticResult) :
    test_info_fn test_info data w = (Return (IsResult r), w') →
    recorded data test_info r
| recorded_contract_violation (w w' : World) (v : Any) :
    test_info_fn test_info data w = (Return (IsOther v), w') →
    recorded data test_info
      {| test_name := test_info_name test_info;
         status := ERROR;
         message := "Test '" +:+ test_info_name test_info
                    +:+ "' did not return a DiagnosticResult.";
         details := [];
         timestamp := wall w' (reads w') |}
| recorded_raised (w w' : World) (e : PyExc) :
    test_info_fn test_info data w = (Raise e, w') →
    isinstance_Exception e = true →
    exc_str_raises e = None →
    recorded data test_info
      {| test_name := test_info_name test_info;
         status := ERROR;
         message := "Test raised an exception: " +:+ exc_str e;
         details := [("traceback", PyStr (format_exc w' e))];
         timestamp := wall w' (reads w') |}.

(** [returned_verbatim data test_info r]: the callable itself returned [r]. *)
Definition returned_verbatim (data : Any) (test_info : TestInfo) (r : DiagnosticResult) : Prop :=
  ∃ w w', test_info_fn test_info data w = (Return (IsResult r), w').



(** [s] occurs in [t]. *)
Definition occurs_in (s t : string) : Prop :=
  ∃ pre post, t = pre +:+ s +:+ post.

(** ** Sample inputs *)

(** A world whose clock counts readings and whose trace rendering is the
    usual header followed by the exception's text. *)
Definition sample_world : World :=
  {| wall := λ n, Z.of_nat n;
     reads := 0;
     format_exc := λ e, "Traceback (most recent call last): " +:+ exc_str e |}.

Definition returns_result (name : string) (st : DiagnosticStatus) (text : string)
  : Callable :=
  λ _, let! r := DiagnosticResult_new name st text [] in ret (IsResult r).

Definition returns_string : Callable :=
  λ _, ret (IsOther (PyStr "ok")).

Definition raises (c : ExcClass) (text : string) : Callable :=
  λ _, raise (mkExc c text).

(** Sample registries for the system ["s"]. *)
Definition pass_then_raise : DiagnosticsRegistry :=
  register_test
    (register_test (register_system new "s" "" "0.1.0")
       "s" "first" "" (returns_result "first" PASS "ok"))
    "s" "second" "" (raises ValueError "boom").


Definition exit_then_pass : DiagnosticsRegistry :=
  register_test
    (register_test (register_system new "s" "" "0.1.0")
       "s" "first" "" (raises SystemExit "1"))
    "s" "second" "" (returns_result "second" PASS "ok").

Definition returns_text : DiagnosticsRegistry :=
  register_test (register_system new "s" "" "0.1.0") "s" "texty" "" returns_string.




Definition text_in_the_middle : DiagnosticsRegistry :=
  register_test
    (register_test
       (register_test (register_system new "s" "" "0.1.0")
          "s" "first" "" (returns_result "first" PASS "ok"))
       "s" "texty" "" returns_string)
    "s" "third" "" (returns_result "third" WARNING "hm").

Definition two_reports : DiagnosticsRegistry :=
  register_report
    (register_report (register_system new "s" "" "0.1.0")
       "s" "head" "" (λ _, ret (IsOther (PyStr "head"))))
    "s" "tail" "" (λ data, ret (IsOther data)).

Definition all_raising : DiagnosticsRegistry :=
  register_test
    (register_test
       (register_test (register_system new "s" "" "0.1.0")
          "s" "first" "" (raises ValueError "boom"))
       "s" "second" "" (raises (ExceptionSubclass "KeyError") "'k'"))
    "s" "third" "" (raises (ExceptionSubclass "ZeroDivisionError") "division by zero").

Definition unprintable_then_pass : DiagnosticsRegistry :=
  register_test
    (register_test
       (register_test (register_system new "s" "" "0.1.0")
          "s" "first" "" (returns_result "first" PASS "ok"))
       "s" "second" ""
       (λ _, raise (BuildExc (ExceptionSubclass "Boom") ""
                      (Some (mkExc (ExceptionSubclass "IndexError")
                               "list index out of range")))))
    "s" "third" "" (returns_result "third" PASS "ok").

Definition with_artifacts : DiagnosticsRegistry :=
  register_report
    (register_plot
       (register_plot (register_system new "s" "" "0.1.0")
          "s" "p" "" (λ _, ret (IsOther (PyObject "Figure" 1))))
       "s" "p" "" (λ _, ret (IsOther (PyObject "Figure" 2))))
    "s" "r" "" (λ data, ret (IsOther data)).

(** ** Registration traces *)

(** What one registration call contributes to the lists and to the System
    Info of the system [s]. *)
Definition tests_of_call (s : string) (c : RegCall) : list TestInfo :=
  match c with
  | AddTest system test_info => if decide (system = s) then [test_info] else []
  | _ => []
  end.

Definition plots_of_call (s : string) (c : RegCall) : list PlotInfo :=
  match c with
  | AddPlot system plot_info => if decide (system = s) then [plot_info] else []
  | _ => []
  end.

Definition reports_of_call (s : string) (c : RegCall) : list ReportInfo :=
  match c with
  | AddReport system report_info => if decide (system = s) then [report_info] else []
  | _ => []
  end.

Definition info_of_call (s : string) (c : RegCall) : option SystemInfo :=
  match c with
  | AddSystem name description version =>
      if decide (name = s) then Some (mkSystemInfo name description version) else None
  | _ => None
  end.

(** [c] is an [add_system] call for [s]. *)
Definition declares (s : string) (c : RegCall) : Prop :=
  match c with
  | AddSystem name _ _ => name = s
  | _ => False
  end.

(** [c] is an [add_test] call for [s]. *)
Definition adds_test_to (s : string) (c : RegCall) : Prop :=
  match c with
  | AddTest system _ => system = s
  | _ => False
  end.

(** Every System Info is stored under its own name, and a declared system
    has its three lists. *)
Definition registry_wf (self : DiagnosticsRegistry) : Prop :=
  ∀ s info,
    get_systems self !! s = Some info →
    sys_name info = s
    ∧ is_Some (_tests self !! s)
    ∧ is_Some (_plots self !! s)
    ∧ is_Some (_reports self !! s).

(** [c] is an [add_plot] call for [s]; [c] is an [add_report] call for [s]. *)
Definition adds_plot_to (s : string) (c : RegCall) : Prop :=
  match c with
  | AddPlot system _ => system = s
  | _ => False
  end.

Definition adds_report_to (s : string) (c : RegCall) : Prop :=
  match c with
  | AddReport system _ => system = s
  | _ => False
  end.

(** Two registries answer every query by system name alike. (The order in
    which [get_systems] lists the names is outside the embedding.) *)
Definition same_answers (r1 r2 : DiagnosticsRegistry) : Prop :=
  ∀ s, get_systems r1 !! s = get_systems r2 !! s
       ∧ get_tests r1 s = get_tests r2 s
       ∧ get_plots r1 s = get_plots r2 s
       ∧ get_reports r1 s = get_reports r2 s.

(** Two registries hold the same under the key [s]. *)
Definition agree_at (s : string) (r1 r2 : DiagnosticsRegistry) : Prop :=
  _systems r1 !! s = _systems r2 !! s
  ∧ _tests r1 !! s = _tests r2 !! s
  ∧ _plots r1 !! s = _plots r2 !! s
  ∧ _reports r1 !! s = _reports r2 !! s.

(** ** Kinds of callables *)

(** The callable of [test_info] raises, whenever it is run on [data], an
    exception that the handler turns into a result. *)
Definition always_raises (data : Any) (test_info : TestInfo) : Prop :=
  ∀ w, ∃ e w', test_info_fn test_info data w = (Raise e, w') ∧ handled e.

(** The callable of [test_info] may read the clock but leaves the clock's
    readings and the trace rendering as they are. *)
Definition keeps_clock (data : Any) (test_info : TestInfo) : Prop :=
  ∀ w o w', test_info_fn test_info data w = (o, w') →
            wall w' = wall w ∧ format_exc w' = format_exc w ∧ reads w ≤ reads w'.

(** ** systems/generic_example.py and systems/sensor_monitoring.py: checks *)

(** What the checks read from a [pandas.DataFrame]. The library is not part
    of the repository: a data frame is given by the values of the
    expressions the checks evaluate on it. Column labels are taken to be
    strings where they are used as dictionary keys. *)
Record DataFrame : Type := mkDataFrame {
  frame_empty : bool;                        (* [data.empty] *)
  frame_len : nat;                           (* [len(data)] *)
  frame_columns : list Any;                  (* [list(data.columns)] *)
  frame_null_counts : list (string * nat)    (* [data.isnull().sum().items()] *)
}.

(** Which objects are data frames: the view of the object of a class and
    identity as a [DataFrame], if it is one. *)
Definition Pandas : Type := string → nat → option DataFrame.

(** [isinstance(data, pd.DataFrame)], with the frame when it holds. Lists,
    dictionaries, strings, numbers and [None] are never data frames. *)
Definition as_DataFrame (pd : Pandas) (data : Any) : option DataFrame :=
  match data with
  | PyObject class_name ident => pd class_name ident
  | _ => None
  end.

(** [data is None] *)
Definition is_None (data : Any) : bool :=
  match data with
  | PyNone => true
  | _ => false
  end.

(** [d[k] = v] on a dictionary kept as its list of items: an existing key
    keeps its place and takes the new value, a new key goes to the end. *)
Fixpoint dict_set (d : list (string * Any)) (k : string) (v : Any) : list (string * Any) :=
  match d with
  | [] => [(k, v)]
  | (k', v') :: d' =>
      if String.eqb k' k then (k', v) :: d' else (k', v') :: dict_set d' k v
  end.

(** [len(d)] for a dictionary given by a list of items: the number of
    distinct keys. *)
Definition dict_len (d : list (string * Any)) : nat :=
  length (remove_dups (d.*1)).

Module generic_example.

Definition SYSTEM_NAME : string := "generic_example".

Definition check_not_empty (pd : Pandas) : Callable :=
  λ data,
    let '(is_empty, size) :=
      match as_DataFrame pd data with
      | Some df => (frame_empty df, frame_len df)
      | None =>
          match data with
          | PyList l => (Nat.eqb (length l) 0, length l)
          | PyDict d => (Nat.eqb (dict_len d) 0, dict_len d)
          | _ => (is_None data, if is_None data then 0 else 1)
          end
      end in
    if is_empty then
      let! r := DiagnosticResult_new "check_not_empty" FAIL "Data is empty." [] in
      ret (IsResult r)
    else
      let! r := DiagnosticResult_new "check_not_empty" PASS
                  ("Data has " +:+ pretty size +:+ " records.")
                  [("record_count", PyInt (Z.of_nat size))] in
      ret (IsResult r).

(** [{col: int(count) for col, count in null_counts.items() if count > 0}] *)
Definition cols_with_nulls (null_counts : list (string * nat)) : list (string * Any) :=
  foldl (λ d item, if Nat.ltb 0 item.2
                   then dict_set d item.1 (PyInt (Z.of_nat item.2))
                   else d)
        [] null_counts.

Definition check_no_nulls (pd : Pandas) : Callable :=
  λ data,
    match as_DataFrame pd data with
    | None =>
        let! r := DiagnosticResult_new "check_no_nulls" WARNING
                    "Null check only supported for DataFrame input. Skipped." [] in
        ret (IsResult r)
    | Some df =>
        let null_counts := frame_null_counts df in
        let total_nulls := sum_list (null_counts.*2) in
        let cols := cols_with_nulls null_counts in
        if Nat.eqb total_nulls 0 then
          let! r := DiagnosticResult_new "check_no_nulls" PASS "No null values found." [] in
          ret (IsResult r)
        else
          let! r := DiagnosticResult_new "check_no_nulls"
                      (if Nat.ltb total_nulls (frame_len df) then WARNING else FAIL)
                      ("Found " +:+ pretty total_nulls +:+ " null value(s) across "
                       +:+ pretty (length cols) +:+ " column(s).")
                      [("columns_with_nulls", PyDict cols)] in
          ret (IsResult r)
    end.

End generic_example.

Module sensor_monitoring.

Definition SYSTEM_NAME : string := "sensor_monitoring".

Definition check_not_empty (pd : Pandas) : Callable :=
  λ data,
    match as_DataFrame pd data with
    | Some df =>
        if frame_empty df then
          let! r := DiagnosticResult_new "check_not_empty" FAIL "No data found." [] in
          ret (IsResult r)
        else
          let! r := DiagnosticResult_new "check_not_empty" PASS
                      ("Dataset has " +:+ pretty (frame_len df) +:+ " rows and "
                       +:+ pretty (length (frame_columns df)) +:+ " columns.")
                      [("rows", PyInt (Z.of_nat (frame_len df)));
                       ("columns", PyList (frame_columns df))] in
          ret (IsResult r)
    | None =>
        let! r := DiagnosticResult_new "check_not_empty" FAIL "No data found." [] in
        ret (IsResult r)
    end.

End sensor_monitoring.

(** The three checks as their modules register them, with the names and
    descriptions given to [register_test]. *)
Definition generic_check_not_empty (pd : Pandas) : TestInfo :=
  mkTestInfo "check_not_empty" "Verify the data is not empty"
    (generic_example.check_not_empty pd).

Definition generic_check_no_nulls (pd : Pandas) : TestInfo :=
  mkTestInfo "check_no_nulls" "Check for null or missing values"
    (generic_example.check_no_nulls pd).

Definition sensor_check_not_empty (pd : Pandas) : TestInfo :=
  mkTestInfo "check_not_empty" "Verify sensor data is not empty"
    (sensor_monitoring.check_not_empty pd).

(** A check that keeps to the contract on [data]: it returns a
    [DiagnosticResult] named after its entry, with a message and a status
    other than [ERROR], and reads the clock once on the way. *)
Definition conforming (data : Any) (test_info : TestInfo) : Prop :=
  ∀ w, ∃ r,
    test_info_fn test_info data w = (Return (IsResult r), tick w)
    ∧ test_name r = test_info_name test_info
    ∧ message r ≠ ""
    ∧ status r ≠ ERROR
    ∧ timestamp r = wall w (reads w).

(** No object is a data frame; a sample frame with two rows. *)
Definition no_frames : Pandas := λ _ _, None.

Definition sample_frame : DataFrame :=
  {| frame_empty := false;
     frame_len := 2;
     frame_columns := [PyStr "a"; PyStr "b"; PyStr "c"];
     frame_null_counts := [("a", 1); ("b", 0); ("c", 1)] |}.

Definition one_frame : Pandas :=
  λ class_name ident,
    if String.eqb class_name "DataFrame" then Some sample_frame else None.

(** * Properties *)

(** ** The dictionaries of lists *)

Section dict_of_lists.
Context {A : Type}.
Implicit Types (d : gmap string (list A)) (k s : string) (x : A).

Lemma get_list_None d k : d !! k = None → get_list d k = [].
Proof. unfold get_list. by intros ->. Qed.

Lemma get_list_Some d k l : d !! k = Some l → get_list d k = l.
Proof. unfold get_list. by intros ->. Qed.

Lemma setdefault_nil_lookup d k s :
  setdefault_nil d k !! s
  = if decide (s = k) then Some (get_list d k) else d !! s.
Proof.
  unfold setdefault_nil, get_list.
  destruct (d !! k) as [l|] eqn:E; case_decide; subst; simplify_map_eq; done.
Qed.

Lemma get_list_setdefault_nil d k s :
  get_list (setdefault_nil d k) s = get_list d s.
Proof.
  unfold get_list at 1. rewrite setdefault_nil_lookup.
  case_decide; by subst.
Qed.

Lemma setdefault_append_lookup d k x s :
  setdefault_append d k x !! s
  = if decide (s = k) then Some (get_list d k ++ [x]) else d !! s.
Proof.
  unfold setdefault_append, get_list.
  destruct (d !! k) as [l|] eqn:E; case_decide; subst; simplify_map_eq; done.
Qed.

Lemma get_list_setdefault_append d k x :
  get_list (setdefault_append d k x) k = get_list d k ++ [x].
Proof.
  unfold get_list at 1. rewrite setdefault_append_lookup.
  by rewrite decide_True.
Qed.

Lemma get_list_setdefault_append_ne d k x s :
  s ≠ k → get_list (setdefault_append d k x) s = get_list d s.
Proof.
  intros Hne. unfold get_list. rewrite setdefault_append_lookup.
  by rewrite decide_False.
Qed.
End dict_of_lists.

(** ** The summary counters *)

Lemma sum_of_ones {A} (l : list A) : sum_list ((λ _, 1) <$> l) = length l.
Proof. induction l as [|a l IH]; [done | cbn; by f_equal]. Qed.

Lemma count_status_length st rs :
  count_status st rs = length (filter (λ r, status r = st) rs).
Proof. unfold count_status. apply sum_of_ones. Qed.

Lemma count_status_cons st r rs :
  count_status st (r :: rs)
  = (if decide (status r = st) then 1 else 0) + count_status st rs.
Proof.
  rewrite !count_status_length, filter_cons.
  by case_decide.
Qed.

Lemma count_status_app st rs1 rs2 :
  count_status st (rs1 ++ rs2) = count_status st rs1 + count_status st rs2.
Proof.
  rewrite !count_status_length, filter_app, length_app. done.
Qed.

Lemma count_status_total rs :
  count_status PASS rs + count_status FAIL rs
  + count_status WARNING rs + count_status ERROR rs = length rs.
Proof.
  induction rs as [|r rs IH]; [done|].
  rewrite !count_status_cons. simpl length.
  destruct (status r); repeat case_decide; try congruence; lia.
Qed.

(** C5. For every summary the four counters add up to the number of
    results; each counter is the number of results that carry its status,
    and a status is one of the four values. The counters are computed from
    the list the summary holds when they are read: after
    [results.append(r)] each of them counts [r] too. *)
Theorem summary_counts_partition (s : DiagnosticSummary) :
  pass_count s + fail_count s + warning_count s + error_count s = length (results s)
  ∧ pass_count s = length (filter (λ r, status r = PASS) (results s))
  ∧ fail_count s = length (filter (λ r, status r = FAIL) (results s))
  ∧ warning_count s = length (filter (λ r, status r = WARNING) (results s))
  ∧ error_count s = length (filter (λ r, status r = ERROR) (results s))
  ∧ (∀ st : DiagnosticStatus, st = PASS ∨ st = FAIL ∨ st = WARNING ∨ st = ERROR)
  ∧ (∀ r : DiagnosticResult,
       let s' := results_append s r in
       pass_count s' = pass_count s + (if decide (status r = PASS) then 1 else 0)
       ∧ fail_count s' = fail_count s + (if decide (status r = FAIL) then 1 else 0)
       ∧ warning_count s' = warning_count s + (if decide (status r = WARNING) then 1 else 0)
       ∧ error_count s' = error_count s + (if decide (status r = ERROR) then 1 else 0)).
Proof.
  unfold pass_count, fail_count, warning_count, error_count.
  split_and!; try apply count_status_length.
  - apply count_status_total.
  - intros []; auto.
  - intros r. simpl.
    rewrite !count_status_app, !count_status_cons.
    unfold count_status; simpl. split_and!; lia.
Qed.

(** ** The registry *)

Lemma do_call_other (self : DiagnosticsRegistry) (c : RegCall) (s : string) :
  call_system c ≠ s →
  _systems (do_call self c) !! s = _systems self !! s
  ∧ _tests (do_call self c) !! s = _tests self !! s
  ∧ _plots (do_call self c) !! s = _plots self !! s
  ∧ _reports (do_call self c) !! s = _reports self !! s.
Proof.
  destruct c; simpl; intros Hne;
    rewrite ?setdefault_nil_lookup, ?setdefault_append_lookup,
            ?lookup_insert_ne, ?decide_False by done; done.
Qed.

Lemma do_calls_other (cs : list RegCall) (self : DiagnosticsRegistry) (s : string) :
  Forall (λ c, call_system c ≠ s) cs →
  _systems (do_calls self cs) !! s = _systems self !! s
  ∧ _tests (do_calls self cs) !! s = _tests self !! s
  ∧ _plots (do_calls self cs) !! s = _plots self !! s
  ∧ _reports (do_calls self cs) !! s = _reports self !! s.
Proof.
  unfold do_calls. revert self.
  induction cs as [|c cs IH]; intros self Hcs; [done|].
  apply Forall_cons in Hcs as [Hc Hcs]. simpl.
  destruct (IH (do_call self c) Hcs) as (-> & -> & -> & ->).
  by apply do_call_other.
Qed.

Lemma run_diagnostics_no_tests (registry : DiagnosticsRegistry) (system : string)
    (data : Any) (w : World) :
  get_tests registry system = [] →
  run_diagnostics registry system data w
  = (Return {| system_name := system; results := [];
               summary_timestamp := wall w (reads w) |},
     tick w).
Proof. unfold run_diagnostics. by intros ->. Qed.

(** C6. A system name that no registration call ever named is unknown to
    the registry: [get_tests], [get_plots] and [get_reports] give the empty
    list, and [run_diagnostics] on it returns a summary without results
    instead of raising. *)
Theorem unknown_system_is_empty (cs : list RegCall) (system : string)
    (data : Any) (w : World) :
  Forall (λ c, call_system c ≠ system) cs →
  let registry := do_calls new cs in
  get_tests registry system = []
  ∧ get_plots registry system = []
  ∧ get_reports registry system = []
  ∧ run_diagnostics registry system data w
    = (Return {| system_name := system; results := [];
                 summary_timestamp := wall w (reads w) |},
       tick w).
Proof.
  intros Hcs registry.
  destruct (do_calls_other cs new system Hcs) as (_ & Ht & Hp & Hr).
  assert (get_tests registry system = []) as Htests.
  { apply get_list_None. subst registry. rewrite Ht. apply lookup_empty. }
  split_and!; [done | | | by apply run_diagnostics_no_tests].
  - apply get_list_None. subst registry. rewrite Hp. apply lookup_empty.
  - apply get_list_None. subst registry. rewrite Hr. apply lookup_empty.
Qed.

(** C7. [add_system] is a total operation. After it the System Info of
    [name] is the one just given, whatever was there before; the test, plot
    and report dictionaries have a key for [name], bound to the empty list
    when there was none; every list the accessors give, for [name] and for
    every other system, is the one they gave before; and the System Info
    and the keys of the other systems are untouched. *)
Theorem add_system_keeps_entries (self : DiagnosticsRegistry)
    (name description version : string) :
  let self' := add_system self name description version in
  get_systems self' !! name = Some (mkSystemInfo name description version)
  ∧ is_Some (_tests self' !! name)
  ∧ is_Some (_plots self' !! name)
  ∧ is_Some (_reports self' !! name)
  ∧ (_tests self !! name = None → _tests self' !! name = Some [])
  ∧ (_plots self !! name = None → _plots self' !! name = Some [])
  ∧ (_reports self !! name = None → _reports self' !! name = Some [])
  ∧ (∀ s, get_tests self' s = get_tests self s
          ∧ get_plots self' s = get_plots self s
          ∧ get_reports self' s = get_reports self s)
  ∧ (∀ s, s ≠ name →
          get_systems self' !! s = get_systems self !! s
          ∧ _tests self' !! s = _tests self !! s
          ∧ _plots self' !! s = _plots self !! s
          ∧ _reports self' !! s = _reports self !! s).
Proof.
  simpl. unfold get_systems, get_tests, get_plots, get_reports. simpl.
  rewrite !setdefault_nil_lookup, !decide_True by done.
  split_and!; try done.
  - apply lookup_insert_eq.
  - intros H. by rewrite (get_list_None _ _ H).
  - intros H. by rewrite (get_list_None _ _ H).
  - intros H. by rewrite (get_list_None _ _ H).
  - intros s. by rewrite !get_list_setdefault_nil.
  - intros s Hne. rewrite !setdefault_nil_lookup, !decide_False by done.
    by rewrite lookup_insert_ne.
Qed.

(** C8. After [add_test(s, e)] the tests of [s] are the former ones followed
    by [e]; when [s] had no list yet the result is the one-element list.
    Nothing looks at the entry's name: two registrations in a row leave both
    entries at the end, in that order, whether or not their names are equal.
    [add_plot] and [add_report] behave the same on their own lists. *)
Theorem add_entry_appends (self : DiagnosticsRegistry) (system : string) :
  (∀ e, get_tests (add_test self system e) system = get_tests self system ++ [e])
  ∧ (∀ e, _tests self !! system = None → get_tests (add_test self system e) system = [e])
  ∧ (∀ e1 e2, get_tests (add_test (add_test self system e1) system e2) system
              = get_tests self system ++ [e1; e2])
  ∧ (∀ e, get_plots (add_plot self system e) system = get_plots self system ++ [e])
  ∧ (∀ e, _plots self !! system = None → get_plots (add_plot self system e) system = [e])
  ∧ (∀ e1 e2, get_plots (add_plot (add_plot self system e1) system e2) system
              = get_plots self system ++ [e1; e2])
  ∧ (∀ e, get_reports (add_report self system e) system = get_reports self system ++ [e])
  ∧ (∀ e, _reports self !! system = None
          → get_reports (add_report self system e) system = [e])
  ∧ (∀ e1 e2, get_reports (add_report (add_report self system e1) system e2) system
              = get_reports self system ++ [e1; e2]).
Proof.
  unfold get_tests, get_plots, get_reports. simpl.
  split_and!; intros;
    rewrite ?get_list_setdefault_append, <- ?(assoc_L (++)); try done;
    by rewrite (get_list_None _ _ H).
Qed.

(** ** The runner: one test *)

Section one_test.
Variables (test_info : TestInfo) (data : Any) (results : list DiagnosticResult).
Variables (w w1 : World).

Lemma run_test_result (r : DiagnosticResult) :
  test_info_fn test_info data w = (Return (IsResult r), w1) →
  run_test test_info data results w = (Return (results ++ [r]), w1).
Proof. intros H. unfold run_test, try_except_Exception, bind. by rewrite H. Qed.

Lemma run_test_other (v : Any) :
  test_info_fn test_info data w = (Return (IsOther v), w1) →
  run_test test_info data results w
  = (Return (results ++ [ {| test_name := test_info_name test_info;
                             status := ERROR;
                             message := "Test '" +:+ test_info_name test_info
                                        +:+ "' did not return a DiagnosticResult.";
                             details := [];
                             timestamp := wall w1 (reads w1) |} ]),
     tick w1).
Proof. intros H. unfold run_test, try_except_Exception, bind. by rewrite H. Qed.

Lemma run_test_caught (e : PyExc) :
  test_info_fn test_info data w = (Raise e, w1) →
  isinstance_Exception e = true →
  exc_str_raises e = None →
  run_test test_info data results w
  = (Return (results ++ [ {| test_name := test_info_name test_info;
                             status := ERROR;
                             message := "Test raised an exception: " +:+ exc_str e;
                             details := [("traceback", PyStr (format_exc w1 e))];
                             timestamp := wall w1 (reads w1) |} ]),
     tick w1).
Proof.
  intros H He Hs. unfold run_test, try_except_Exception, bind, str_of_exception.
  by rewrite H, He, Hs.
Qed.

Lemma run_test_str_raises (e e' : PyExc) :
  test_info_fn test_info data w = (Raise e, w1) →
  isinstance_Exception e = true →
  exc_str_raises e = Some e' →
  run_test test_info data results w = (Raise e', w1).
Proof.
  intros H He Hs. unfold run_test, try_except_Exception, bind, str_of_exception.
  by rewrite H, He, Hs.
Qed.

Lemma run_test_escapes (e : PyExc) :
  test_info_fn test_info data w = (Raise e, w1) →
  isinstance_Exception e = false →
  run_test test_info data results w = (Raise e, w1).
Proof.
  intros H He. unfold run_test, try_except_Exception, bind. by rewrite H, He.
Qed.

End one_test.

(** One iteration either adds exactly one recorded result, or raises:
    because the callable raised an exception that the handler does not turn
    into a result. *)
Lemma run_test_outcome (test_info : TestInfo) (data : Any)
    (results : list DiagnosticResult) (w : World) :
  (∃ r w', run_test test_info data results w = (Return (results ++ [r]), w')
           ∧ recorded data test_info r)
  ∨ (∃ e e' w', run_test test_info data results w = (Raise e', w')
                ∧ test_info_fn test_info data w = (Raise e, w')
                ∧ ¬ handled e).
Proof.
  destruct (test_info_fn test_info data w) as [[[r|v]|e] w1] eqn:Hfn.
  - left. eexists _, _. split; [by apply run_test_result|]. by econstructor 1.
  - left. eexists _, _. split; [by eapply run_test_other|]. by econstructor 2.
  - destruct (isinstance_Exception e) eqn:He.
    + destruct (exc_str_raises e) as [e'|] eqn:Hs.
      * right. exists e, e', w1.
        split_and!; [by eapply run_test_str_raises | done |].
        intros [_ ?]. congruence.
      * left. eexists _, _. split; [by apply run_test_caught|]. by econstructor 3.
    + right. exists e, e, w1. split_and!; [by apply run_test_escapes | done |].
      intros [? _]. congruence.
Qed.

(** ** The runner: the loop *)

Lemma run_tests_cons (test_info : TestInfo) (tests : list TestInfo) (data : Any)
    (results results' : list DiagnosticResult) (w w' : World) :
  run_test test_info data results w = (Return results', w') →
  run_tests (test_info :: tests) data results w = run_tests tests data results' w'.
Proof. intros H. simpl. unfold bind. by rewrite H. Qed.

Lemma run_tests_app (tests1 tests2 : list TestInfo) (data : Any) :
  ∀ (acc : list DiagnosticResult) (w : World),
    run_tests (tests1 ++ tests2) data acc w
    = (let! rs := run_tests tests1 data acc in run_tests tests2 data rs) w.
Proof.
  induction tests1 as [|t tests1 IH]; intros acc w; [done|].
  simpl. unfold bind.
  destruct (run_test t data acc w) as [[rs|e] w1]; [|done].
  rewrite IH. by unfold bind.
Qed.

Lemma run_tests_recorded (data : Any) (tests : list TestInfo) :
  ∀ (acc rs : list DiagnosticResult) (w w' : World),
    run_tests tests data acc w = (Return rs, w') →
    ∃ new, rs = acc ++ new ∧ Forall2 (recorded data) tests new.
Proof.
  induction tests as [|t tests IH]; intros acc rs w w' Hrun.
  - injection Hrun as <- _. exists []. by rewrite app_nil_r.
  - destruct (run_test_outcome t data acc w)
      as [(r & w1 & H1 & Hrec)|(e & e' & w1 & H1 & _)].
    + rewrite (run_tests_cons _ _ _ _ _ _ _ H1) in Hrun.
      destruct (IH _ _ _ _ Hrun) as (new & -> & Hnew).
      exists (r :: new). split; [by rewrite <- (assoc_L (++)) | by constructor].
    + simpl in Hrun. unfold bind in Hrun. by rewrite H1 in Hrun.
Qed.

Lemma run_tests_total (data : Any) (tests : list TestInfo) :
  Forall (only_raises_handled data) tests →
  ∀ (acc : list DiagnosticResult) (w : World),
    ∃ rs w', run_tests tests data acc w = (Return rs, w').
Proof.
  induction 1 as [|t tests Ht _ IH]; intros acc w.
  - by eexists _, _.
  - destruct (run_test_outcome t data acc w)
      as [(r & w1 & H1 & _)|(e & e' & w1 & _ & Hfn & He)].
    + rewrite (run_tests_cons _ _ _ _ _ _ _ H1). apply IH.
    + by apply Ht in Hfn.
Qed.

Lemma run_diagnostics_returned (registry : DiagnosticsRegistry) (system : string)
    (data : Any) (w w' : World) (summary : DiagnosticSummary) :
  run_diagnostics registry system data w = (Return summary, w') →
  system_name summary = system
  ∧ Forall2 (recorded data) (get_tests registry system) (results summary).
Proof.
  unfold run_diagnostics, bind.
  destruct (run_tests _ data [] w) as [[rs|e] w1] eqn:Hrun; [|done].
  intros [= <- _]. simpl. split; [done|].
  by destruct (run_tests_recorded _ _ _ _ _ _ Hrun) as (new & -> & Hnew).
Qed.

Lemma run_diagnostics_total (registry : DiagnosticsRegistry) (system : string)
    (data : Any) (w : World) :
  Forall (only_raises_handled data) (get_tests registry system) →
  ∃ summary w', run_diagnostics registry system data w = (Return summary, w').
Proof.
  intros Hall. unfold run_diagnostics, bind.
  destruct (run_tests_total _ _ Hall [] w) as (rs & w1 & ->).
  by eexists _, _.
Qed.

(** ** Strings built by the runner *)


Lemma append_assoc (s t u : string) : (s +:+ t) +:+ u = s +:+ t +:+ u.
Proof.
  induction s as [|a s IH]; [done|].
  change (String a ((s +:+ t) +:+ u) = String a (s +:+ t +:+ u)). by rewrite IH.
Qed.

Lemma occurs_in_middle (pre s post : string) : occurs_in s (pre +:+ s +:+ post).
Proof. by exists pre, post. Qed.

Lemma occurs_in_start (s post : string) : occurs_in s (s +:+ post).
Proof. by exists "", post. Qed.


Lemma occurs_in_prefixed (pre s t : string) : occurs_in s t → occurs_in s (pre +:+ t).
Proof.
  intros (p & q & ->). exists (pre +:+ p), q. by rewrite append_assoc.
Qed.

Lemma literal_prefix_nonempty (a : Ascii.ascii) (pre s : string) : String a pre +:+ s ≠ "".
Proof. done. Qed.

(** ** The runner: what a run gives back *)

(** A run whose tests up to one test completed goes on from that test's
    result with the tests after it. *)
Lemma run_diagnostics_through (registry : DiagnosticsRegistry) (system : string)
    (data : Any) (pre post : list TestInfo) (test_info : TestInfo)
    (rs : list DiagnosticResult) (r : DiagnosticResult) (w w1 w3 : World) :
  get_tests registry system = pre ++ test_info :: post →
  run_tests pre data [] w = (Return rs, w1) →
  run_test test_info data rs w1 = (Return (rs ++ [r]), w3) →
  length rs = length pre
  ∧ run_diagnostics registry system data w
    = (let! results := run_tests post data (rs ++ [r]) in
       let! ts := now in
       ret {| system_name := system; results := results; summary_timestamp := ts |}) w3
  ∧ (∀ summary, (run_diagnostics registry system data w).1 = Return summary →
       results summary !! length pre = Some r
       ∧ take (length pre) (results summary) = rs
       ∧ Forall2 (recorded data) post (drop (S (length pre)) (results summary)))
  ∧ (Forall (only_raises_handled data) post →
     ∃ summary w',
       run_diagnostics registry system data w = (Return summary, w')
       ∧ results summary !! length pre = Some r
       ∧ length (results summary) = length (get_tests registry system)).
Proof.
  intros Htests Hpre Ht.
  assert (length rs = length pre) as Hlen.
  { destruct (run_tests_recorded _ _ _ _ _ _ Hpre) as (new & -> & Hnew).
    simpl. symmetry. by eapply Forall2_length. }
  assert (run_tests (get_tests registry system) data [] w
          = run_tests post data (rs ++ [r]) w3) as Hloop.
  { rewrite Htests, run_tests_app. unfold bind at 1. rewrite Hpre.
    by apply run_tests_cons. }
  assert (∀ rs' w4, run_tests post data (rs ++ [r]) w3 = (Return rs', w4) →
            ∃ new, rs' = rs ++ r :: new ∧ Forall2 (recorded data) post new) as Hpost.
  { intros rs' w4 H. destruct (run_tests_recorded _ _ _ _ _ _ H) as (new & -> & Hnew).
    exists new. by rewrite <- (assoc_L (++)). }
  split_and!.
  - done.
  - unfold run_diagnostics. unfold bind at 1 3. by rewrite Hloop.
  - intros summary. unfold run_diagnostics. unfold bind at 1. rewrite Hloop.
    destruct (run_tests post data (rs ++ [r]) w3) as [[rs'|e'] w4] eqn:Hrun; [|done].
    destruct (Hpost _ _ eq_refl) as (new & -> & Hnew).
    simpl. intros [= <-]. simpl. rewrite <- Hlen. split_and!.
    + by rewrite list_lookup_middle.
    + by rewrite take_app_length.
    + rewrite (cons_middle r rs new), (assoc_L (++)).
      rewrite drop_app_length'; [done|]. rewrite length_app. simpl. lia.
  - intros Hall. destruct (run_tests_total _ _ Hall (rs ++ [r]) w3) as (rs' & w4 & Hrun).
    destruct (Hpost _ _ Hrun) as (new & -> & Hnew).
    unfold run_diagnostics. unfold bind at 1. rewrite Hloop, Hrun. simpl.
    eexists _, _. split; [reflexivity|]. simpl. split.
    + rewrite <- Hlen. by rewrite list_lookup_middle.
    + rewrite Htests, !length_app. simpl. rewrite Hlen.
      by rewrite (Forall2_length _ _ _ Hnew).
Qed.








(** C3. In a run of [run_diagnostics] where the tests before some test
    completed and that test's callable returns a value that is not a
    [DiagnosticResult] instance, nothing is raised on account of it: the
    run continues with the tests registered after it, from the result list
    extended by one synthesized result. Whenever the run returns a summary,
    this result stands at the test's position, after the results of the
    earlier tests and before one result per later test; it has status
    [ERROR], the entry's registered name, and a message that quotes this
    name. The run does return a summary when the later tests raise nothing
    the handler cannot turn into a result. *)
Theorem non_result_becomes_error_result (registry : DiagnosticsRegistry)
    (system : string) (data : Any) (pre post : list TestInfo) (test_info : TestInfo)
    (rs : list DiagnosticResult) (w w1 w2 : World) (v : PyReturn) :
  get_tests registry system = pre ++ test_info :: post →
  run_tests pre data [] w = (Return rs, w1) →
  test_info_fn test_info data w1 = (Return v, w2) →
  isinstance_DiagnosticResult v = false →
  let r := {| test_name := test_info_name test_info;
              status := ERROR;
              message := "Test '" +:+ test_info_name test_info
                         +:+ "' did not return a DiagnosticResult.";
              details := [];
              timestamp := wall w2 (reads w2) |} in
  occurs_in (test_info_name test_info) (message r)
  ∧ length rs = length pre
  ∧ run_diagnostics registry system data w
    = (let! results := run_tests post data (rs ++ [r]) in
       let! ts := now in
       ret {| system_name := system; results := results; summary_timestamp := ts |})
        (tick w2)
  ∧ (∀ summary, (run_diagnostics registry system data w).1 = Return summary →
       results summary !! length pre = Some r
       ∧ take (length pre) (results summary) = rs
       ∧ Forall2 (recorded data) post (drop (S (length pre)) (results summary)))
  ∧ (Forall (only_raises_handled data) post →
     ∃ summary w',
       run_diagnostics registry system data w = (Return summary, w')
       ∧ results summary !! length pre = Some r
       ∧ length (results summary) = length (get_tests registry system)).
Proof.
  intros Htests Hpre Hfn Hv r. destruct v as [r0|v]; [done|].
  pose proof (run_test_other test_info data rs w1 w2 v Hfn) as Hrun.
  split; [apply occurs_in_middle|].
  exact (run_diagnostics_through _ _ _ _ _ _ _ _ _ _ _ Htests Hpre Hrun).
Qed.

Lemma non_result_becomes_error_result_witness :
  let r := {| test_name := "texty";
              status := ERROR;
              message := "Test 'texty' did not return a DiagnosticResult.";
              details := [];
              timestamp := 1%Z |} in
  let third := mkTestInfo "third" "" (returns_result "third" WARNING "hm") in
  occurs_in "texty" (message r)
  ∧ length [mkResult "first" PASS "ok" [] 0%Z] = 1
  ∧ run_diagnostics text_in_the_middle "s" PyNone sample_world
    = (let! results := run_tests [third] PyNone
                         ([mkResult "first" PASS "ok" [] 0%Z] ++ [r]) in
       let! ts := now in
       ret {| system_name := "s"; results := results; summary_timestamp := ts |})
        (tick (tick sample_world))
  ∧ (∀ summary,
       (run_diagnostics text_in_the_middle "s" PyNone sample_world).1 = Return summary →
       results summary !! 1 = Some r
       ∧ take 1 (results summary) = [mkResult "first" PASS "ok" [] 0%Z]
       ∧ Forall2 (recorded PyNone) [third] (drop 2 (results summary)))
  ∧ (Forall (only_raises_handled PyNone) [third] →
     ∃ summary w',
       run_diagnostics text_in_the_middle "s" PyNone sample_world = (Return summary, w')
       ∧ results summary !! 1 = Some r
       ∧ length (results summary) = length (get_tests text_in_the_middle "s")).
Proof.
  exact (non_result_becomes_error_result text_in_the_middle "s" PyNone
           [mkTestInfo "first" "" (returns_result "first" PASS "ok")]
           [mkTestInfo "third" "" (returns_result "third" WARNING "hm")]
           (mkTestInfo "texty" "" returns_string)
           [mkResult "first" PASS "ok" [] 0%Z]
           sample_world (tick sample_world) (tick sample_world)
           (IsOther (PyStr "ok"))
           eq_refl eq_refl eq_refl eq_refl).
Defined.

(** ** Results and the entries they come from *)



Lemma recorded_status (data : Any) (t : TestInfo) (r : DiagnosticResult) :
  recorded data t r → returned_verbatim data t r ∨ status r = ERROR.
Proof. destruct 1; [left; by eexists _, _ | by right..]. Qed.

Lemma Forall2_recorded_under (data : Any) (P : TestInfo → Prop)
    (Q : TestInfo → DiagnosticResult → Prop) :
  (∀ t r, P t → recorded data t r → Q t r) →
  ∀ tests rs, Forall P tests → Forall2 (recorded data) tests rs → Forall2 Q tests rs.
Proof.
  intros HPQ tests rs HP Hrec. revert HP.
  induction Hrec as [|t r tests rs Htr _ IH]; intros HP; [constructor|].
  apply Forall_cons in HP as [Ht HP]. constructor; [by apply HPQ | by apply IH].
Qed.

Lemma run_diagnostics_fst_returned (registry : DiagnosticsRegistry) (system : string)
    (data : Any) (w : World) (summary : DiagnosticSummary) :
  (run_diagnostics registry system data w).1 = Return summary →
  Forall2 (recorded data) (get_tests registry system) (results summary).
Proof.
  destruct (run_diagnostics registry system data w) as [o w'] eqn:Hrun.
  simpl. intros ->. by apply run_diagnostics_returned in Hrun as [_ ?].
Qed.









(** ** Plots and reports by name *)

Lemma search_plots_absent (plots : list PlotInfo) (name : string) (data : Any)
    (otherwise : M PyReturn) :
  Forall (λ p, plot_info_name p ≠ name) plots →
  search_plots plots name data otherwise = otherwise.
Proof.
  induction 1 as [|p plots Hp _ IH]; [done|]. simpl.
  apply String.eqb_neq in Hp. by rewrite Hp.
Qed.

Lemma search_plots_first (pre post : list PlotInfo) (p : PlotInfo) (name : string)
    (data : Any) (otherwise : M PyReturn) :
  Forall (λ q, plot_info_name q ≠ name) pre →
  plot_info_name p = name →
  search_plots (pre ++ p :: post) name data otherwise = plot_info_fn p data.
Proof.
  intros Hpre Hp. induction Hpre as [|q pre Hq _ IH]; simpl.
  - apply String.eqb_eq in Hp. by rewrite Hp.
  - apply String.eqb_neq in Hq. by rewrite Hq.
Qed.

Lemma search_reports_absent (reports : list ReportInfo) (name : string) (data : Any)
    (otherwise : M PyReturn) :
  Forall (λ p, report_info_name p ≠ name) reports →
  search_reports reports name data otherwise = otherwise.
Proof.
  induction 1 as [|p reports Hp _ IH]; [done|]. simpl.
  apply String.eqb_neq in Hp. by rewrite Hp.
Qed.

Lemma search_reports_first (pre post : list ReportInfo) (p : ReportInfo) (name : string)
    (data : Any) (otherwise : M PyReturn) :
  Forall (λ q, report_info_name q ≠ name) pre →
  report_info_name p = name →
  search_reports (pre ++ p :: post) name data otherwise = report_info_fn p data.
Proof.
  intros Hpre Hp. induction Hpre as [|q pre Hq _ IH]; simpl.
  - apply String.eqb_eq in Hp. by rewrite Hp.
  - apply String.eqb_neq in Hq. by rewrite Hq.
Qed.

(** A list with an element satisfying a decidable property splits at the
    first such element. *)
Lemma first_split {A} (P : A → Prop) `{∀ x, Decision (P x)} (l : list A) :
  Exists P l →
  ∃ pre x post, l = pre ++ x :: post ∧ Forall (λ y, ¬ P y) pre ∧ P x.
Proof.
  induction 1 as [x l Hx|x l _ IH].
  - by exists [], x, l.
  - destruct (decide (P x)) as [Hx|Hx].
    + by exists [], x, l.
    + destruct IH as (pre & y & post & -> & Hpre & Hy).
      exists (x :: pre), y, post. split_and!; [done | by constructor | done].
Qed.

(** C4. [generate_plot] walks the plots of the system in registration
    order. When no plot has the name, it raises a [ValueError] whose text
    quotes the plot name and the system name. When some plot has the name,
    the outcome is that of the callable of the first such plot applied to
    the data, value or exception, with nothing done to it.
    [generate_report] does the same over the reports. *)
Theorem generate_by_name (registry : DiagnosticsRegistry) (system name : string)
    (data : Any) (w : World) :
  (Forall (λ p, plot_info_name p ≠ name) (get_plots registry system) →
   generate_plot registry system name data w
   = (Raise (mkExc ValueError
               ("Plot '" +:+ name +:+ "' not found for system '" +:+ system +:+ "'.")),
      w))
  ∧ occurs_in name (exc_str (plot_not_found system name))
  ∧ occurs_in system (exc_str (plot_not_found system name))
  ∧ (∀ pre p post,
       get_plots registry system = pre ++ p :: post →
       Forall (λ q, plot_info_name q ≠ name) pre →
       plot_info_name p = name →
       generate_plot registry system name data w = plot_info_fn p data w)
  ∧ (Exists (λ p, plot_info_name p = name) (get_plots registry system) →
     ∃ p, p ∈ get_plots registry system ∧ plot_info_name p = name
          ∧ generate_plot registry system name data w = plot_info_fn p data w)
  ∧ (Forall (λ p, report_info_name p ≠ name) (get_reports registry system) →
     generate_report registry system name data w
     = (Raise (mkExc ValueError
                 ("Report '" +:+ name +:+ "' not found for system '" +:+ system +:+ "'.")),
        w))
  ∧ occurs_in name (exc_str (report_not_found system name))
  ∧ occurs_in system (exc_str (report_not_found system name))
  ∧ (∀ pre p post,
       get_reports registry system = pre ++ p :: post →
       Forall (λ q, report_info_name q ≠ name) pre →
       report_info_name p = name →
       generate_report registry system name data w = report_info_fn p data w)
  ∧ (Exists (λ p, report_info_name p = name) (get_reports registry system) →
     ∃ p, p ∈ get_reports registry system ∧ report_info_name p = name
          ∧ generate_report registry system name data w = report_info_fn p data w).
Proof.
  unfold generate_plot, generate_report. split_and!.
  - intros Habs. by rewrite search_plots_absent.
  - apply occurs_in_middle.
  - do 3 apply occurs_in_prefixed. apply occurs_in_start.
  - intros pre p post -> Hpre Hp. by rewrite search_plots_first.
  - intros (pre & p & post & Heq & Hpre & Hp)%first_split; [|apply _].
    exists p. split_and!; [rewrite Heq; set_solver | done |].
    rewrite Heq. by rewrite search_plots_first.
  - intros Habs. by rewrite search_reports_absent.
  - apply occurs_in_middle.
  - do 3 apply occurs_in_prefixed. apply occurs_in_start.
  - intros pre p post -> Hpre Hp. by rewrite search_reports_first.
  - intros (pre & p & post & Heq & Hpre & Hp)%first_split; [|apply _].
    exists p. split_and!; [rewrite Heq; set_solver | done |].
    rewrite Heq. by rewrite search_reports_first.
Qed.

Lemma generate_by_name_witness :
  generate_plot with_artifacts "s" "missing" PyNone sample_world
  = (Raise (mkExc ValueError "Plot 'missing' not found for system 's'."), sample_world)
  ∧ generate_report with_artifacts "s" "missing" PyNone sample_world
    = (Raise (mkExc ValueError "Report 'missing' not found for system 's'."), sample_world)
  ∧ generate_plot with_artifacts "s" "p" PyNone sample_world
    = (Return (IsOther (PyObject "Figure" 1)), sample_world)
  ∧ generate_report with_artifacts "s" "r" (PyInt 7) sample_world
    = (Return (IsOther (PyInt 7)), sample_world).
Proof.
  split_and!.
  - apply (generate_by_name with_artifacts "s" "missing" PyNone sample_world).
    repeat constructor; done.
  - apply (generate_by_name with_artifacts "s" "missing" PyNone sample_world).
    repeat constructor; done.
  - apply (proj1 (proj2 (proj2 (proj2
             (generate_by_name with_artifacts "s" "p" PyNone sample_world))))
             [] (mkPlotInfo "p" "" (λ _, ret (IsOther (PyObject "Figure" 1))))
             [mkPlotInfo "p" "" (λ _, ret (IsOther (PyObject "Figure" 2)))]);
      [reflexivity | constructor | reflexivity].
  - apply (proj1 (proj2 (proj2 (proj2 (proj2 (proj2 (proj2 (proj2 (proj2
             (generate_by_name with_artifacts "s" "r" (PyInt 7) sample_world)))))))))
             [] (mkReportInfo "r" "" (λ data, ret (IsOther data))) []);
      [reflexivity | constructor | reflexivity].
Defined.

Lemma unknown_system_is_empty_witness :
  let registry :=
    do_calls new [AddSystem "s" "" "0.1.0";
                  AddTest "s" (mkTestInfo "first" "" (returns_result "first" PASS "ok"));
                  AddPlot "s" (mkPlotInfo "p" "" (λ _, ret (IsOther (PyObject "Figure" 1))))] in
  get_tests registry "t" = []
  ∧ get_plots registry "t" = []
  ∧ get_reports registry "t" = []
  ∧ run_diagnostics registry "t" PyNone sample_world
    = (Return {| system_name := "t"; results := []; summary_timestamp := 0%Z |},
       tick sample_world).
Proof.
  apply (unknown_system_is_empty _ "t" PyNone sample_world).
  repeat constructor; done.
Defined.

(** * Further properties of the registry *)

Lemma registry_eq (r1 r2 : DiagnosticsRegistry) :
  (∀ k, _systems r1 !! k = _systems r2 !! k) →
  (∀ k, _tests r1 !! k = _tests r2 !! k) →
  (∀ k, _plots r1 !! k = _plots r2 !! k) →
  (∀ k, _reports r1 !! k = _reports r2 !! k) →
  r1 = r2.
Proof.
  destruct r1, r2; simpl. intros H1%map_eq H2%map_eq H3%map_eq H4%map_eq.
  by subst.
Qed.

Lemma do_calls_snoc (self : DiagnosticsRegistry) (cs : list RegCall) (c : RegCall) :
  do_calls self (cs ++ [c]) = do_call (do_calls self cs) c.
Proof. unfold do_calls. by rewrite foldl_app. Qed.

Lemma do_calls_cons (self : DiagnosticsRegistry) (c : RegCall) (cs : list RegCall) :
  do_calls self (c :: cs) = do_calls (do_call self c) cs.
Proof. done. Qed.

Lemma do_call_tests (self : DiagnosticsRegistry) (c : RegCall) (s : string) :
  get_tests (do_call self c) s = get_tests self s ++ tests_of_call s c.
Proof.
  unfold get_tests. destruct c as [n d v|system t|system p|system p]; simpl;
    rewrite ?app_nil_r; try done.
  - apply get_list_setdefault_nil.
  - case_decide; subst.
    + apply get_list_setdefault_append.
    + rewrite app_nil_r. by apply get_list_setdefault_append_ne.
Qed.

Lemma do_call_plots (self : DiagnosticsRegistry) (c : RegCall) (s : string) :
  get_plots (do_call self c) s = get_plots self s ++ plots_of_call s c.
Proof.
  unfold get_plots. destruct c as [n d v|system t|system p|system p]; simpl;
    rewrite ?app_nil_r; try done.
  - apply get_list_setdefault_nil.
  - case_decide; subst.
    + apply get_list_setdefault_append.
    + rewrite app_nil_r. by apply get_list_setdefault_append_ne.
Qed.

Lemma do_call_reports (self : DiagnosticsRegistry) (c : RegCall) (s : string) :
  get_reports (do_call self c) s = get_reports self s ++ reports_of_call s c.
Proof.
  unfold get_reports. destruct c as [n d v|system t|system p|system p]; simpl;
    rewrite ?app_nil_r; try done.
  - apply get_list_setdefault_nil.
  - case_decide; subst.
    + apply get_list_setdefault_append.
    + rewrite app_nil_r. by apply get_list_setdefault_append_ne.
Qed.

Lemma do_call_systems (self : DiagnosticsRegistry) (c : RegCall) (s : string) :
  get_systems (do_call self c) !! s
  = from_option Some (get_systems self !! s) (info_of_call s c).
Proof.
  unfold get_systems. destruct c as [n d v|system t|system p|system p]; simpl; try done.
  case_decide; subst; simpl; [apply lookup_insert_eq | by apply lookup_insert_ne].
Qed.

(** X1. The lists the accessors give are the registration history: after
    any sequence of registration calls, the tests of a system are the ones
    it had before followed by the entries of the [add_test] calls naming
    it, in call order; the same for plots and reports. Calls for other
    systems and calls of the other kinds contribute nothing. *)
Theorem accessors_replay_calls (self : DiagnosticsRegistry) (cs : list RegCall)
    (s : string) :
  get_tests (do_calls self cs) s = get_tests self s ++ flat_map (tests_of_call s) cs
  ∧ get_plots (do_calls self cs) s = get_plots self s ++ flat_map (plots_of_call s) cs
  ∧ get_reports (do_calls self cs) s
    = get_reports self s ++ flat_map (reports_of_call s) cs.
Proof.
  revert self. induction cs as [|c cs IH]; intros self.
  - simpl. by rewrite !app_nil_r.
  - rewrite do_calls_cons. destruct (IH (do_call self c)) as (-> & -> & ->).
    rewrite do_call_tests, do_call_plots, do_call_reports. simpl.
    by rewrite <- !(assoc_L (++)).
Qed.

(** X2. The System Info of a name is the one given by the last
    [add_system] call for that name; when no call declared the name it is
    what it was before, so registering tests, plots or reports for a name
    never makes it a listed system. *)
Theorem last_declaration_wins (self : DiagnosticsRegistry) (cs : list RegCall)
    (s : string) :
  get_systems (do_calls self cs) !! s
  = from_option Some (get_systems self !! s) (last (omap (info_of_call s) cs)).
Proof.
  induction cs as [|c cs IH] using rev_ind; [done|].
  rewrite do_calls_snoc, do_call_systems, IH, omap_app. simpl.
  destruct (info_of_call s c) as [info|]; simpl.
  - by rewrite last_snoc.
  - by rewrite app_nil_r.
Qed.

Ltac registry_lookups :=
  repeat first
    [ rewrite setdefault_nil_lookup
    | rewrite setdefault_append_lookup
    | rewrite lookup_insert
    | progress unfold get_list
    | case_decide
    | progress subst
    | progress simpl ];
  try done; try congruence.

(** X3. Every registry built from the empty one by registration calls is
    well formed: each System Info sits under its own name, and a declared
    system has a test list, a plot list and a report list, even when
    nothing was registered for it. *)
Theorem reachable_registry_wf (cs : list RegCall) : registry_wf (do_calls new cs).
Proof.
  induction cs as [|c cs IH] using rev_ind; [by intros s info ?|].
  rewrite do_calls_snoc. set (r := do_calls new cs) in *.
  intros s info Hs. rewrite do_call_systems in Hs.
  assert (∀ A (d : gmap string (list A)) k x,
            is_Some (d !! s) → is_Some (setdefault_append d k x !! s)) as Happ.
  { intros A d k x Hd. rewrite setdefault_append_lookup. by case_decide. }
  destruct c as [n d v|system t|system p|system p]; simpl in *.
  - case_decide as Hn; simpl in Hs.
    + injection Hs as <-. subst n. simpl.
      rewrite !setdefault_nil_lookup, !decide_True by done. eauto.
    + destruct (IH s info Hs) as (? & ? & ? & ?).
      rewrite !setdefault_nil_lookup, !decide_False by done. eauto.
  - destruct (IH s info Hs) as (? & ? & ? & ?). eauto.
  - destruct (IH s info Hs) as (? & ? & ? & ?). eauto.
  - destruct (IH s info Hs) as (? & ? & ? & ?). eauto.
Qed.

Lemma add_system_do_call_comm (self : DiagnosticsRegistry)
    (name description version : string) (c : RegCall) :
  ¬ declares name c →
  do_call (add_system self name description version) c
  = add_system (do_call self c) name description version.
Proof.
  intros Hc. apply registry_eq; intros k;
    destruct c as [n d v|system t|system p|system p]; simpl in *;
    registry_lookups.
Qed.

(** X4. Load order between a system's declaration and anything else does
    not matter: declaring a system before or after any registration call
    that is not itself an [add_system] for the same name gives registries
    that answer every query by name alike. In particular, tests registered
    before their system is declared are listed exactly as if they had been
    registered after. *)
Theorem declaration_commutes (self : DiagnosticsRegistry)
    (name description version : string) (c : RegCall) :
  ¬ declares name c →
  same_answers (do_call (add_system self name description version) c)
               (add_system (do_call self c) name description version).
Proof.
  intros Hc. rewrite (add_system_do_call_comm _ _ _ _ _ Hc).
  intros s. by split_and!.
Qed.

Lemma declaration_commutes_witness :
  same_answers
    (do_call (add_system new "s" "" "0.1.0")
       (AddTest "s" (mkTestInfo "first" "" returns_string)))
    (add_system (do_call new (AddTest "s" (mkTestInfo "first" "" returns_string)))
       "s" "" "0.1.0").
Proof.
  apply (declaration_commutes new "s" "" "0.1.0"
           (AddTest "s" (mkTestInfo "first" "" returns_string))).
  simpl. exact (λ H : False, H).
Defined.

Lemma agree_at_refl (s : string) (r : DiagnosticsRegistry) : agree_at s r r.
Proof. by split_and!. Qed.

Lemma agree_at_trans (s : string) (r1 r2 r3 : DiagnosticsRegistry) :
  agree_at s r1 r2 → agree_at s r2 r3 → agree_at s r1 r3.
Proof. intros (? & ? & ? & ?) (? & ? & ? & ?). split_and!; congruence. Qed.

Lemma agree_at_sym (s : string) (r1 r2 : DiagnosticsRegistry) :
  agree_at s r1 r2 → agree_at s r2 r1.
Proof. intros (? & ? & ? & ?). by split_and!. Qed.

Lemma agree_at_answers (s : string) (r1 r2 : DiagnosticsRegistry) :
  agree_at s r1 r2 →
  get_systems r1 !! s = get_systems r2 !! s
  ∧ get_tests r1 s = get_tests r2 s
  ∧ get_plots r1 s = get_plots r2 s
  ∧ get_reports r1 s = get_reports r2 s.
Proof.
  intros (Hs & Ht & Hp & Hr).
  unfold get_systems, get_tests, get_plots, get_reports, get_list.
  by rewrite Hs, Ht, Hp, Hr.
Qed.

(** What a call does under a key depends only on what the registry holds
    under this key. *)
Lemma do_call_local (s : string) (r1 r2 : DiagnosticsRegistry) (c : RegCall) :
  agree_at s r1 r2 → agree_at s (do_call r1 c) (do_call r2 c).
Proof.
  intros (Hs & Ht & Hp & Hr).
  destruct c as [n d v|system t|system p|system p]; simpl;
    unfold agree_at; simpl;
    rewrite ?setdefault_nil_lookup, ?setdefault_append_lookup, ?lookup_insert;
    unfold get_list; split_and!; try done; case_decide; subst;
    rewrite ?Ht, ?Hp, ?Hr; done.
Qed.

Lemma do_calls_local (s : string) (cs : list RegCall) :
  ∀ r1 r2, agree_at s r1 r2 → agree_at s (do_calls r1 cs) (do_calls r2 cs).
Proof.
  induction cs as [|c cs IH]; intros r1 r2 H; [done|].
  rewrite !do_calls_cons. by apply IH, do_call_local.
Qed.

Lemma do_calls_unnamed (s : string) (cs : list RegCall) (r : DiagnosticsRegistry) :
  Forall (λ c, call_system c ≠ s) cs → agree_at s (do_calls r cs) r.
Proof. intros H. by apply do_calls_other. Qed.

Lemma do_calls_app (r : DiagnosticsRegistry) (cs1 cs2 : list RegCall) :
  do_calls r (cs1 ++ cs2) = do_calls (do_calls r cs1) cs2.
Proof. unfold do_calls. by rewrite foldl_app. Qed.

(** X5. The order in which the plugins of different systems are loaded
    does not matter to the entries: when no call of one batch of
    registration calls names a system that a call of the other batch
    names, running the batches in either order gives registries that
    answer every query by name alike. *)
Theorem load_order_of_systems_irrelevant (self : DiagnosticsRegistry)
    (cs1 cs2 : list RegCall) :
  (∀ c1 c2, c1 ∈ cs1 → c2 ∈ cs2 → call_system c1 ≠ call_system c2) →
  same_answers (do_calls self (cs1 ++ cs2)) (do_calls self (cs2 ++ cs1)).
Proof.
  intros Hdisj s. apply agree_at_answers. rewrite !do_calls_app.
  destruct (decide (Exists (λ c, call_system c = s) cs1)) as [Hin|Hout].
  - assert (Forall (λ c, call_system c ≠ s) cs2) as H2.
    { apply Forall_forall. intros c2 Hc2 Heq.
      apply Exists_exists in Hin as (c1 & Hc1 & Hs1).
      apply (Hdisj c1 c2 Hc1 Hc2). congruence. }
    eapply agree_at_trans; [by apply do_calls_unnamed|].
    apply do_calls_local, agree_at_sym. by apply do_calls_unnamed.
  - assert (Forall (λ c, call_system c ≠ s) cs1) as H1.
    { apply Forall_forall. intros c1 Hc1 Heq. apply Hout.
      apply Exists_exists. by exists c1. }
    eapply agree_at_trans; [|apply agree_at_sym; by apply do_calls_unnamed].
    apply do_calls_local. by apply do_calls_unnamed.
Qed.

Lemma load_order_of_systems_irrelevant_witness :
  same_answers
    (do_calls new
       ([AddSystem "s" "" "0.1.0"; AddTest "s" (mkTestInfo "first" "" returns_string)]
        ++ [AddTest "t" (mkTestInfo "other" "" returns_string)]))
    (do_calls new
       ([AddTest "t" (mkTestInfo "other" "" returns_string)]
        ++ [AddSystem "s" "" "0.1.0";
            AddTest "s" (mkTestInfo "first" "" returns_string)])).
Proof.
  apply (load_order_of_systems_irrelevant new
           [AddSystem "s" "" "0.1.0"; AddTest "s" (mkTestInfo "first" "" returns_string)]
           [AddTest "t" (mkTestInfo "other" "" returns_string)]).
  intros c1 c2 H1 H2.
  apply list_elem_of_In in H1, H2. simpl in H1, H2.
  destruct H1 as [<-|[<-|[]]], H2 as [<-|[]]; simpl; discriminate.
Defined.

(** * Further properties of the runner *)

Lemma run_diagnostics_fst (registry : DiagnosticsRegistry) (system : string)
    (data : Any) (w : World) (summary : DiagnosticSummary) :
  (run_diagnostics registry system data w).1 = Return summary ↔
  ∃ w1, run_tests (get_tests registry system) data [] w = (Return (results summary), w1)
        ∧ system_name summary = system
        ∧ summary_timestamp summary = wall w1 (reads w1).
Proof.
  unfold run_diagnostics, bind. destruct summary as [n rs' ts]. simpl.
  destruct (run_tests _ data [] w) as [[rs|e] w1]; simpl; split.
  - intros [= <- <- <-]. by exists w1.
  - by intros (w2 & [= <- <-] & <- & ->).
  - done.
  - by intros (w2 & [=] & _).
Qed.

(** X6. Registering one more test for a system leaves the results of the
    tests registered before it as they were: whenever the run over the
    extended registry returns a summary, the run over the former registry
    from the same state returns one too, and the new results are the
    former results followed by the single result recorded for the new
    test. *)
Theorem one_more_test_extends_results (registry : DiagnosticsRegistry) (system : string)
    (test_info : TestInfo) (data : Any) (w : World) (summary' : DiagnosticSummary) :
  (run_diagnostics (add_test registry system test_info) system data w).1
  = Return summary' →
  ∃ summary r,
    (run_diagnostics registry system data w).1 = Return summary
    ∧ results summary' = results summary ++ [r]
    ∧ recorded data test_info r.
Proof.
  intros (w2 & Hrun & Hname & Hts)%run_diagnostics_fst.
  unfold get_tests in Hrun. simpl in Hrun.
  rewrite get_list_setdefault_append, run_tests_app in Hrun.
  fold (get_tests registry system) in Hrun. unfold bind in Hrun.
  destruct (run_tests (get_tests registry system) data [] w) as [[rs|e] w1] eqn:Hold;
    [|done].
  destruct (run_tests_recorded data [test_info] _ _ _ _ Hrun) as (new & Hnew & Hrec).
  apply Forall2_cons_inv_l in Hrec as (r & new' & Hr & Hnil%Forall2_nil_inv_l & ->).
  subst new'.
  exists {| system_name := system; results := rs;
            summary_timestamp := wall w1 (reads w1) |}, r.
  split_and!; [|done..].
  apply run_diagnostics_fst. by exists w1.
Qed.

Lemma one_more_test_extends_results_witness :
  ∃ summary r,
    (run_diagnostics
       (register_test new "s" "first" "" (returns_result "first" PASS "ok"))
       "s" PyNone sample_world).1 = Return summary
    ∧ [ mkResult "first" PASS "ok" [] 0%Z;
        mkResult "second" ERROR "Test raised an exception: boom"
          [("traceback", PyStr "Traceback (most recent call last): boom")] 1%Z ]
      = results summary ++ [r]
    ∧ recorded PyNone (mkTestInfo "second" "" (raises ValueError "boom")) r.
Proof.
  exact (one_more_test_extends_results
           (register_test new "s" "first" "" (returns_result "first" PASS "ok"))
           "s" (mkTestInfo "second" "" (raises ValueError "boom")) PyNone sample_world
           {| system_name := "s";
              results :=
                [ mkResult "first" PASS "ok" [] 0%Z;
                  mkResult "second" ERROR "Test raised an exception: boom"
                    [("traceback", PyStr "Traceback (most recent call last): boom")] 1%Z ];
              summary_timestamp := 2%Z |}
           eq_refl).
Defined.

(** X7. A registration call changes only what it names: [run_diagnostics]
    for a system is the same before and after any call that is not an
    [add_test] for that system, and likewise [generate_plot] with
    [add_plot] and [generate_report] with [add_report]. *)
Theorem runner_ignores_unrelated_calls (registry : DiagnosticsRegistry) (c : RegCall)
    (system name : string) (data : Any) :
  (¬ adds_test_to system c →
   run_diagnostics (do_call registry c) system data
   = run_diagnostics registry system data)
  ∧ (¬ adds_plot_to system c →
     generate_plot (do_call registry c) system name data
     = generate_plot registry system name data)
  ∧ (¬ adds_report_to system c →
     generate_report (do_call registry c) system name data
     = generate_report registry system name data).
Proof.
  unfold run_diagnostics, generate_plot, generate_report.
  rewrite do_call_tests, do_call_plots, do_call_reports.
  split_and!; intros Hc; destruct c as [n d v|s t|s p|s p]; simpl in *;
    try case_decide; rewrite ?app_nil_r; done.
Qed.

(** X8. An exception that is not an [Exception] ends the run where it is
    raised: when the tests before it completed and the next callable raises
    such an exception, [run_diagnostics] raises this very exception, in the
    state the callable left, whatever tests are registered after it. *)
Theorem exit_signal_stops_the_run (registry : DiagnosticsRegistry) (system : string)
    (data : Any) (pre post : list TestInfo) (test_info : TestInfo)
    (rs : list DiagnosticResult) (w w1 w2 : World) (e : PyExc) :
  get_tests registry system = pre ++ test_info :: post →
  run_tests pre data [] w = (Return rs, w1) →
  test_info_fn test_info data w1 = (Raise e, w2) →
  isinstance_Exception e = false →
  run_diagnostics registry system data w = (Raise e, w2).
Proof.
  intros Htests Hpre Hfn He. unfold run_diagnostics. rewrite Htests.
  unfold bind at 1. rewrite run_tests_app. unfold bind at 1. rewrite Hpre.
  simpl. unfold bind at 1.
  by rewrite (run_test_escapes _ _ _ _ _ _ Hfn He).
Qed.

Lemma exit_signal_stops_the_run_witness :
  run_diagnostics exit_then_pass "s" PyNone sample_world
  = (Raise (mkExc SystemExit "1"), sample_world).
Proof.
  exact (exit_signal_stops_the_run exit_then_pass "s" PyNone []
           [mkTestInfo "second" "" (returns_result "second" PASS "ok")]
           (mkTestInfo "first" "" (raises SystemExit "1"))
           [] sample_world sample_world sample_world (mkExc SystemExit "1")
           eq_refl eq_refl eq_refl eq_refl).
Defined.

Lemma count_status_all (st : DiagnosticStatus) (rs : list DiagnosticResult) :
  Forall (λ r, status r = st) rs → count_status st rs = length rs.
Proof.
  induction 1 as [|r rs Hr _ IH]; [done|].
  rewrite count_status_cons, decide_True by done. simpl. by rewrite IH.
Qed.

Lemma count_status_none (st : DiagnosticStatus) (rs : list DiagnosticResult) :
  Forall (λ r, status r ≠ st) rs → count_status st rs = 0.
Proof.
  induction 1 as [|r rs Hr _ IH]; [done|].
  by rewrite count_status_cons, decide_False.
Qed.

Lemma always_raises_only_handled (data : Any) (t : TestInfo) :
  always_raises data t → only_raises_handled data t.
Proof.
  intros Ht w e w' Hfn. destruct (Ht w) as (e' & w'' & Hfn' & He').
  rewrite Hfn in Hfn'. by injection Hfn' as -> _.
Qed.

Lemma always_raises_recorded (data : Any) (t : TestInfo) (r : DiagnosticResult) :
  always_raises data t → recorded data t r → status r = ERROR.
Proof.
  intros Ht Hrec. destruct (recorded_status _ _ _ Hrec) as [(w & w' & Hfn)|]; [|done].
  destruct (Ht w) as (e & w'' & Hfn' & _). by rewrite Hfn in Hfn'.
Qed.

(** X9. When every registered test of a system raises on the data an
    exception that the handler turns into a result (an instance of
    [Exception] whose [str()] returns), the run still returns a summary,
    and the summary is all errors: every result has status [ERROR], [error_count] is the number of
    registered tests and the three other counters are zero. *)
Theorem all_raising_all_errors (registry : DiagnosticsRegistry) (system : string)
    (data : Any) (w : World) :
  Forall (always_raises data) (get_tests registry system) →
  ∃ summary w',
    run_diagnostics registry system data w = (Return summary, w')
    ∧ Forall (λ r, status r = ERROR) (results summary)
    ∧ error_count summary = length (get_tests registry system)
    ∧ pass_count summary = 0
    ∧ fail_count summary = 0
    ∧ warning_count summary = 0.
Proof.
  intros Hall.
  assert (Forall (only_raises_handled data) (get_tests registry system)) as Honly.
  { eapply Forall_impl; [exact Hall|]. apply always_raises_only_handled. }
  destruct (run_diagnostics_total registry system data w Honly) as (summary & w' & Hrun).
  destruct (run_diagnostics_returned _ _ _ _ _ _ Hrun) as [_ Hrec].
  assert (Forall (λ r, status r = ERROR) (results summary)) as Herr.
  { assert (Forall2 (λ _ r, status r = ERROR) (get_tests registry system)
              (results summary)) as H2.
    { eapply Forall2_recorded_under; [|exact Hall|exact Hrec].
      intros t r. apply always_raises_recorded. }
    clear -H2. induction H2; constructor; done. }
  exists summary, w'. unfold error_count, pass_count, fail_count, warning_count.
  split_and!; [done | done | | | |].
  - rewrite count_status_all by done. symmetry. by eapply Forall2_length.
  - apply count_status_none. eapply Forall_impl; [exact Herr|]. by intros r ->.
  - apply count_status_none. eapply Forall_impl; [exact Herr|]. by intros r ->.
  - apply count_status_none. eapply Forall_impl; [exact Herr|]. by intros r ->.
Qed.

Lemma sample_always_raises :
  Forall (always_raises PyNone) (get_tests all_raising "s").
Proof.
  repeat apply List.Forall_cons; try apply List.Forall_nil; intros w.
  - by exists (mkExc ValueError "boom"), w.
  - by exists (mkExc (ExceptionSubclass "KeyError") "'k'"), w.
  - by exists (mkExc (ExceptionSubclass "ZeroDivisionError") "division by zero"), w.
Defined.

Lemma all_raising_all_errors_witness :
  ∃ summary w',
    run_diagnostics all_raising "s" PyNone sample_world = (Return summary, w')
    ∧ Forall (λ r, status r = ERROR) (results summary)
    ∧ error_count summary = length (get_tests all_raising "s")
    ∧ pass_count summary = 0
    ∧ fail_count summary = 0
    ∧ warning_count summary = 0.
Proof.
  exact (all_raising_all_errors all_raising "s" PyNone sample_world sample_always_raises).
Defined.

(** X10. In every summary that [run_diagnostics] returns, the four
    counters add up to the number of tests registered for the system. *)
Theorem counters_cover_registered_tests (registry : DiagnosticsRegistry)
    (system : string) (data : Any) (w : World) (summary : DiagnosticSummary) :
  (run_diagnostics registry system data w).1 = Return summary →
  pass_count summary + fail_count summary + warning_count summary + error_count summary
  = length (get_tests registry system).
Proof.
  intros Hrec%run_diagnostics_fst_returned.
  unfold pass_count, fail_count, warning_count, error_count.
  rewrite count_status_total. symmetry. by eapply Forall2_length.
Qed.

Lemma counters_cover_registered_tests_witness :
  let summary :=
    {| system_name := "s";
       results :=
         [ mkResult "first" PASS "ok" [] 0%Z;
           mkResult "second" ERROR "Test raised an exception: boom"
             [("traceback", PyStr "Traceback (most recent call last): boom")] 1%Z ];
       summary_timestamp := 2%Z |} in
  pass_count summary + fail_count summary + warning_count summary + error_count summary
  = length (get_tests pass_then_raise "s").
Proof.
  exact (counters_cover_registered_tests pass_then_raise "s" PyNone sample_world _ eq_refl).
Defined.

Lemma run_test_keeps_clock (data : Any) (t : TestInfo) (acc : list DiagnosticResult)
    (w w' : World) (o : Outcome (list DiagnosticResult)) :
  keeps_clock data t →
  run_test t data acc w = (o, w') →
  wall w' = wall w ∧ format_exc w' = format_exc w ∧ reads w ≤ reads w'.
Proof.
  intros Ht. unfold run_test, try_except_Exception, bind.
  destruct (test_info_fn t data w) as [[[r|v]|e] w1] eqn:Hfn;
    destruct (Ht _ _ _ Hfn) as (Hw & Hf & Hr).
  - by intros [= <- <-].
  - simpl. intros [= <- <-]. simpl. split_and!; [done | done | lia].
  - unfold str_of_exception.
    destruct (isinstance_Exception e); [destruct (exc_str_raises e)|];
      simpl; intros [= <- <-]; simpl; split_and!; try done; lia.
Qed.

Lemma run_tests_keeps_clock (data : Any) (tests : list TestInfo) :
  Forall (keeps_clock data) tests →
  ∀ (acc : list DiagnosticResult) (w w' : World) (o : Outcome (list DiagnosticResult)),
    run_tests tests data acc w = (o, w') →
    wall w' = wall w ∧ format_exc w' = format_exc w ∧ reads w ≤ reads w'.
Proof.
  induction 1 as [|t tests Ht _ IH]; intros acc w w' o.
  - by intros [= <- <-].
  - simpl. unfold bind.
    destruct (run_test t data acc w) as [[rs|e] w1] eqn:H1;
      destruct (run_test_keeps_clock _ _ _ _ _ _ Ht H1) as (Hw & Hf & Hr).
    + intros (Hw' & Hf' & Hr')%IH. split_and!; [congruence | congruence | lia].
    + by intros [= <- <-].
Qed.

(** X11. The summary is stamped when the run ends, not when it starts.
    With callables that leave the clock's readings alone, a returned
    summary carries the last reading taken during the run, which comes
    after every reading taken by the tests or for their synthesized
    results; with no registered test it is the first reading of the
    run. *)
Theorem summary_stamped_at_end (registry : DiagnosticsRegistry) (system : string)
    (data : Any) (w w' : World) (summary : DiagnosticSummary) :
  Forall (keeps_clock data) (get_tests registry system) →
  run_diagnostics registry system data w = (Return summary, w') →
  wall w' = wall w
  ∧ format_exc w' = format_exc w
  ∧ reads w < reads w'
  ∧ summary_timestamp summary = wall w (reads w' - 1)
  ∧ (get_tests registry system = [] → summary_timestamp summary = wall w (reads w)).
Proof.
  intros Hall. unfold run_diagnostics, bind.
  destruct (run_tests _ data [] w) as [[rs|e] w1] eqn:Hrun; [|done].
  destruct (run_tests_keeps_clock _ _ Hall _ _ _ _ Hrun) as (Hw & Hf & Hr).
  simpl. intros [= <- <-]. simpl.
  split_and!; [done | done | lia | rewrite Hw; f_equal; lia |].
  intros Hnil. rewrite Hnil in Hrun. by injection Hrun as _ <-.
Qed.

Lemma sample_keeps_clock :
  Forall (keeps_clock PyNone) (get_tests pass_then_raise "s").
Proof.
  apply List.Forall_cons; [|apply List.Forall_cons; [|apply List.Forall_nil]];
    intros [wl rd fe] o w' H; vm_compute in H; injection H as _ <-;
    simpl; split_and!; try done; lia.
Defined.

Lemma summary_stamped_at_end_witness :
  let w' := tick (tick (tick sample_world)) in
  wall w' = wall sample_world
  ∧ format_exc w' = format_exc sample_world
  ∧ reads sample_world < reads w'
  ∧ 2%Z = wall sample_world (reads w' - 1)
  ∧ (get_tests pass_then_raise "s" = [] → 2%Z = wall sample_world (reads sample_world)).
Proof.
  exact (summary_stamped_at_end pass_then_raise "s" PyNone sample_world
           (tick (tick (tick sample_world)))
           {| system_name := "s";
              results :=
                [ mkResult "first" PASS "ok" [] 0%Z;
                  mkResult "second" ERROR "Test raised an exception: boom"
                    [("traceback", PyStr "Traceback (most recent call last): boom")] 1%Z ];
              summary_timestamp := 2%Z |}
           sample_keeps_clock eq_refl).
Defined.

(** * Further properties of plots and reports by name *)

Lemma search_plots_app (l1 l2 : list PlotInfo) (name : string) (data : Any)
    (otherwise : M PyReturn) :
  search_plots (l1 ++ l2) name data otherwise
  = search_plots l1 name data (search_plots l2 name data otherwise).
Proof.
  induction l1 as [|p l1 IH]; [done|]. simpl.
  by destruct (String.eqb (plot_info_name p) name).
Qed.

Lemma search_reports_app (l1 l2 : list ReportInfo) (name : string) (data : Any)
    (otherwise : M PyReturn) :
  search_reports (l1 ++ l2) name data otherwise
  = search_reports l1 name data (search_reports l2 name data otherwise).
Proof.
  induction l1 as [|p l1 IH]; [done|]. simpl.
  by destruct (String.eqb (report_info_name p) name).
Qed.

Lemma search_plots_found (l : list PlotInfo) (name : string) (data : Any)
    (o1 o2 : M PyReturn) :
  Exists (λ q, plot_info_name q = name) l →
  search_plots l name data o1 = search_plots l name data o2.
Proof.
  induction 1 as [p l Hp|p l _ IH]; simpl.
  - apply String.eqb_eq in Hp. by rewrite Hp.
  - by destruct (String.eqb (plot_info_name p) name).
Qed.

Lemma search_reports_found (l : list ReportInfo) (name : string) (data : Any)
    (o1 o2 : M PyReturn) :
  Exists (λ q, report_info_name q = name) l →
  search_reports l name data o1 = search_reports l name data o2.
Proof.
  induction 1 as [p l Hp|p l _ IH]; simpl.
  - apply String.eqb_eq in Hp. by rewrite Hp.
  - by destruct (String.eqb (report_info_name p) name).
Qed.

Lemma get_plots_add_plot (registry : DiagnosticsRegistry) (system : string)
    (p : PlotInfo) :
  get_plots (add_plot registry system p) system = get_plots registry system ++ [p].
Proof. unfold get_plots. simpl. apply get_list_setdefault_append. Qed.

Lemma get_reports_add_report (registry : DiagnosticsRegistry) (system : string)
    (p : ReportInfo) :
  get_reports (add_report registry system p) system = get_reports registry system ++ [p].
Proof. unfold get_reports. simpl. apply get_list_setdefault_append. Qed.

(** X12. The first registration of a name wins. Once a system has a plot
    with a given name, registering any further plot for the system, under
    the same name or another, does not change what [generate_plot] does for
    that name: a second entry with the name is kept in the list but is
    never called. The same holds for reports. *)
Theorem first_registration_wins (registry : DiagnosticsRegistry) (system name : string)
    (data : Any) :
  (Exists (λ q, plot_info_name q = name) (get_plots registry system) →
   ∀ p, generate_plot (add_plot registry system p) system name data
        = generate_plot registry system name data)
  ∧ (Exists (λ q, report_info_name q = name) (get_reports registry system) →
     ∀ p, generate_report (add_report registry system p) system name data
          = generate_report registry system name data).
Proof.
  unfold generate_plot, generate_report. split; intros Hex p.
  - rewrite get_plots_add_plot, search_plots_app. by apply search_plots_found.
  - rewrite get_reports_add_report, search_reports_app. by apply search_reports_found.
Qed.

Lemma first_registration_wins_witness :
  generate_plot
    (add_plot with_artifacts "s" (mkPlotInfo "p" "" (λ _, raise (mkExc ValueError "late"))))
    "s" "p" PyNone
  = generate_plot with_artifacts "s" "p" PyNone.
Proof.
  apply (proj1 (first_registration_wins with_artifacts "s" "p" PyNone)).
  apply List.Exists_cons_hd. reflexivity.
Defined.

(** X13. Registering a plot under a name that the system does not use yet
    makes [generate_plot] for this name run the new plot's callable on the
    data, and leaves [generate_plot] for every other name as it was. The
    same holds for reports. *)
Theorem fresh_name_is_reachable (registry : DiagnosticsRegistry) (system : string)
    (data : Any) :
  (∀ p, Forall (λ q, plot_info_name q ≠ plot_info_name p) (get_plots registry system) →
        generate_plot (add_plot registry system p) system (plot_info_name p) data
        = plot_info_fn p data)
  ∧ (∀ p name, name ≠ plot_info_name p →
        generate_plot (add_plot registry system p) system name data
        = generate_plot registry system name data)
  ∧ (∀ p, Forall (λ q, report_info_name q ≠ report_info_name p)
            (get_reports registry system) →
        generate_report (add_report registry system p) system (report_info_name p) data
        = report_info_fn p data)
  ∧ (∀ p name, name ≠ report_info_name p →
        generate_report (add_report registry system p) system name data
        = generate_report registry system name data).
Proof.
  unfold generate_plot, generate_report. split_and!.
  - intros p Hfresh. rewrite get_plots_add_plot, search_plots_app.
    rewrite search_plots_absent by done. simpl. by rewrite String.eqb_refl.
  - intros p name Hne. rewrite get_plots_add_plot, search_plots_app. simpl.
    apply not_eq_sym, String.eqb_neq in Hne. by rewrite Hne.
  - intros p Hfresh. rewrite get_reports_add_report, search_reports_app.
    rewrite search_reports_absent by done. simpl. by rewrite String.eqb_refl.
  - intros p name Hne. rewrite get_reports_add_report, search_reports_app. simpl.
    apply not_eq_sym, String.eqb_neq in Hne. by rewrite Hne.
Qed.

Lemma fresh_name_is_reachable_witness :
  generate_plot
    (add_plot with_artifacts "s" (mkPlotInfo "q" "" (λ data, ret (IsOther data))))
    "s" "q" (PyInt 3)
  = (λ data, ret (IsOther data)) (PyInt 3).
Proof.
  apply (proj1 (fresh_name_is_reachable with_artifacts "s" (PyInt 3))
           (mkPlotInfo "q" "" (λ data, ret (IsOther data)))).
  repeat constructor; done.
Defined.

(** * The shipped checks *)


Lemma new_result_run (name : string) (st : DiagnosticStatus) (msg : string)
    (det : list (string * Any)) (w : World) :
  (let! r := DiagnosticResult_new name st msg det in ret (IsResult r)) w
  = (Return (IsResult (mkResult name st msg det (wall w (reads w)))), tick w).
Proof. done. Qed.

Ltac result_built :=
  rewrite new_result_run; eexists; split; [reflexivity|]; simpl.



(** X15. The generic [check_no_nulls] never raises and returns a result
    named ["check_no_nulls"]. Input that is not a data frame is skipped
    with a [WARNING]. On a data frame the verdict compares the number of
    null cells with the number of rows: [PASS] with no null cell,
    [WARNING] with fewer null cells than rows, [FAIL] from as many null
    cells as rows on, whatever the number of columns. *)
Theorem generic_check_no_nulls_verdict (pd : Pandas) (data : Any) (w : World) :
  ∃ r,
    generic_example.check_no_nulls pd data w = (Return (IsResult r), tick w)
    ∧ test_name r = "check_no_nulls"
    ∧ (as_DataFrame pd data = None → status r = WARNING ∧ details r = [])
    ∧ (∀ df, as_DataFrame pd data = Some df →
         let total_nulls := sum_list ((frame_null_counts df).*2) in
         (total_nulls = 0 → status r = PASS)
         ∧ (0 < total_nulls < frame_len df → status r = WARNING)
         ∧ (0 < total_nulls ∧ frame_len df ≤ total_nulls → status r = FAIL)).
Proof.
  unfold generic_example.check_no_nulls.
  destruct (as_DataFrame pd data) as [df|] eqn:Hdf; [|by result_built].
  destruct (Nat.eqb_spec (sum_list ((frame_null_counts df).*2)) 0) as [H0|H0].
  - result_built. split_and!; [done | done |].
    intros df' [= <-]. simpl. split_and!; [done | lia | lia].
  - result_built. split_and!; [done | done |].
    intros df' [= <-]. simpl.
    destruct (Nat.ltb_spec (sum_list ((frame_null_counts df).*2)) (frame_len df));
      split_and!; try done; lia.
Qed.

(** X16. The sensor [check_not_empty] never raises and returns a result
    named ["check_not_empty"]: [PASS] exactly for a data frame that is not
    empty, and [FAIL] with "No data found." for everything else, a
    non-empty list or dictionary included. *)
Theorem sensor_check_not_empty_verdict (pd : Pandas) (data : Any) (w : World) :
  ∃ r,
    sensor_monitoring.check_not_empty pd data w = (Return (IsResult r), tick w)
    ∧ test_name r = "check_not_empty"
    ∧ (status r = PASS ↔ ∃ df, as_DataFrame pd data = Some df ∧ frame_empty df = false)
    ∧ (status r ≠ PASS → status r = FAIL ∧ message r = "No data found." ∧ details r = []).
Proof.
  unfold sensor_monitoring.check_not_empty.
  destruct (as_DataFrame pd data) as [df|] eqn:Hdf.
  - destruct (frame_empty df) eqn:He; result_built.
    + split_and!; [done | | done]. split; [done|]. intros (df' & [= <-] & ?). congruence.
    + split_and!; [done | | done]. split; [|done]. intros _. by exists df.
  - result_built. split_and!; [done | | done]. split; [done|]. by intros (df' & ? & _).
Qed.

(** * Checks that keep to the contract *)

Lemma generic_check_not_empty_conforms (pd : Pandas) (data : Any) :
  conforming data (generic_check_not_empty pd).
Proof.
  intros w. simpl. unfold generic_example.check_not_empty.
  destruct (match as_DataFrame pd data with Some _ => _ | None => _ end)
    as [is_empty size].
  destruct is_empty; result_built; split_and!; try done.
Qed.

Lemma generic_check_no_nulls_conforms (pd : Pandas) (data : Any) :
  conforming data (generic_check_no_nulls pd).
Proof.
  intros w. simpl. unfold generic_example.check_no_nulls.
  destruct (as_DataFrame pd data) as [df|]; [|result_built; by split_and!].
  destruct (Nat.eqb _ 0); result_built; split_and!; try done.
  by destruct (Nat.ltb _ _).
Qed.

Lemma sensor_check_not_empty_conforms (pd : Pandas) (data : Any) :
  conforming data (sensor_check_not_empty pd).
Proof.
  intros w. simpl. unfold sensor_monitoring.check_not_empty.
  destruct (as_DataFrame pd data) as [df|]; [|result_built; by split_and!].
  destruct (frame_empty df); result_built; split_and!; try done.
Qed.

Lemma run_tests_conforming (data : Any) (tests : list TestInfo) :
  Forall (conforming data) tests →
  ∀ (acc : list DiagnosticResult) (w : World),
    ∃ rs w',
      run_tests tests data acc w = (Return (acc ++ rs), w')
      ∧ wall w' = wall w
      ∧ format_exc w' = format_exc w
      ∧ reads w' = reads w + length tests
      ∧ Forall2 (λ t r, test_name r = test_info_name t ∧ message r ≠ ""
                        ∧ status r ≠ ERROR) tests rs
      ∧ (∀ i r, rs !! i = Some r → timestamp r = wall w (reads w + i)).
Proof.
  induction 1 as [|t tests Ht _ IH]; intros acc w.
  - exists [], w. rewrite app_nil_r. simpl. split_and!; try done; try lia; constructor.
  - destruct (Ht w) as (r & Hfn & Hname & Hmsg & Hst & Hts).
    destruct (IH (acc ++ [r]) (tick w)) as (rs & w' & Hrun & Hw & Hf & Hr & Hall & Hstamp).
    exists (r :: rs), w'.
    rewrite (run_tests_cons _ _ _ _ _ _ _ (run_test_result _ _ _ _ _ _ Hfn)), Hrun.
    rewrite <- (assoc_L (++)). simpl in *.
    split_and!; [done | done | done | lia | by constructor |].
    intros [|i] r' Hi; simpl in Hi.
    + injection Hi as <-. rewrite Hts. f_equal. lia.
    + rewrite (Hstamp _ _ Hi). f_equal. lia.
Qed.

(** X17. When every test registered for a system keeps to the contract on
    the data, the run returns a summary in which, position by position,
    each result is named after its entry, has a message, and is no
    [ERROR]; [error_count] is zero; the i-th result carries the i-th clock
    reading of the run and the summary the one after the last result. *)
Theorem conforming_checks_give_clean_summary (registry : DiagnosticsRegistry)
    (system : string) (data : Any) (w : World) :
  Forall (conforming data) (get_tests registry system) →
  ∃ summary w',
    run_diagnostics registry system data w = (Return summary, w')
    ∧ Forall2 (λ t r, test_name r = test_info_name t ∧ message r ≠ ""
                      ∧ status r ≠ ERROR)
        (get_tests registry system) (results summary)
    ∧ error_count summary = 0
    ∧ (∀ i r, results summary !! i = Some r → timestamp r = wall w (reads w + i))
    ∧ summary_timestamp summary
      = wall w (reads w + length (get_tests registry system))
    ∧ reads w' = reads w + length (get_tests registry system) + 1.
Proof.
  intros Hall.
  destruct (run_tests_conforming _ _ Hall [] w)
    as (rs & w1 & Hrun & Hw & Hf & Hr & Hres & Hstamp).
  unfold run_diagnostics, bind. rewrite Hrun. simpl.
  eexists _, _. split; [reflexivity|]. simpl.
  split_and!; [done | | done | by rewrite Hw, Hr | lia].
  unfold error_count. simpl. apply count_status_none.
  clear -Hres. induction Hres as [|t r ts rs' (_ & _ & Hst) _ IH]; by constructor.
Qed.

Lemma conforming_checks_give_clean_summary_witness :
  let registry :=
    add_test (add_test (add_system new "generic_example" "" "0.1.0")
                "generic_example" (generic_check_not_empty no_frames))
      "generic_example" (generic_check_no_nulls no_frames) in
  ∃ summary w',
    run_diagnostics registry "generic_example" (PyList [PyInt 1]) sample_world
    = (Return summary, w')
    ∧ Forall2 (λ t r, test_name r = test_info_name t ∧ message r ≠ ""
                      ∧ status r ≠ ERROR)
        (get_tests registry "generic_example") (results summary)
    ∧ error_count summary = 0
    ∧ (∀ i r, results summary !! i = Some r
              → timestamp r = wall sample_world (reads sample_world + i))
    ∧ summary_timestamp summary
      = wall sample_world
          (reads sample_world + length (get_tests registry "generic_example"))
    ∧ reads w' = reads sample_world + length (get_tests registry "generic_example") + 1.
Proof.
  apply (conforming_checks_give_clean_summary _ "generic_example" (PyList [PyInt 1])
           sample_world).
  apply List.Forall_cons; [apply generic_check_not_empty_conforms|].
  apply List.Forall_cons; [apply generic_check_no_nulls_conforms|].
  apply List.Forall_nil.
Defined.

(** X18. The three shipped checks keep to the contract on every input and
    for every data frame library view: each returns a result named as its
    module registers it (["check_not_empty"], ["check_no_nulls"],
    ["check_not_empty"]), with a non-empty message and a status other than
    [ERROR], and raises nothing. *)
Theorem shipped_checks_conform (pd : Pandas) (data : Any) :
  conforming data (generic_check_not_empty pd)
  ∧ conforming data (generic_check_no_nulls pd)
  ∧ conforming data (sensor_check_not_empty pd).
Proof.
  split_and!;
    [ apply generic_check_not_empty_conforms
    | apply generic_check_no_nulls_conforms
    | apply sensor_check_not_empty_conforms ].
Qed.

(** * Registered names and what they resolve to *)

Lemma elem_of_split_names {A} (name : A → string) (l : list A) (p : A) :
  p ∈ l → NoDup (name <$> l) →
  ∃ pre post, l = pre ++ p :: post ∧ Forall (λ q, name q ≠ name p) pre.
Proof.
  intros (pre & post & ->)%list_elem_of_split Hnd.
  exists pre, post. split; [done|].
  rewrite fmap_app, fmap_cons in Hnd.
  apply NoDup_app in Hnd as (_ & Hdisj & _).
  apply Forall_forall. intros q Hq Heq.
  apply (Hdisj (name q)); [by apply list_elem_of_fmap_2|].
  rewrite Heq. by left.
Qed.

(** X19. When the plots of a system have pairwise different names, every
    plot the registry lists is reachable by its name: [generate_plot] with
    the name of a listed plot runs this plot's own callable on the data,
    and so never reports the name as not found. The same holds for
    reports. *)
Theorem distinct_names_resolve_to_own_entry (registry : DiagnosticsRegistry)
    (system : string) (data : Any) :
  (NoDup (plot_info_name <$> get_plots registry system) →
   ∀ p, p ∈ get_plots registry system →
        generate_plot registry system (plot_info_name p) data = plot_info_fn p data)
  ∧ (NoDup (report_info_name <$> get_reports registry system) →
     ∀ p, p ∈ get_reports registry system →
          generate_report registry system (report_info_name p) data
          = report_info_fn p data).
Proof.
  unfold generate_plot, generate_report. split; intros Hnd p Hp.
  - destruct (elem_of_split_names _ _ _ Hp Hnd) as (pre & post & -> & Hpre).
    by apply search_plots_first.
  - destruct (elem_of_split_names _ _ _ Hp Hnd) as (pre & post & -> & Hpre).
    by apply search_reports_first.
Qed.

Lemma distinct_names_resolve_to_own_entry_witness :
  generate_report two_reports "s" "tail" (PyInt 5)
  = report_info_fn (mkReportInfo "tail" "" (λ data, ret (IsOther data))) (PyInt 5).
Proof.
  refine (proj2 (distinct_names_resolve_to_own_entry two_reports "s" (PyInt 5))
            _ (mkReportInfo "tail" "" (λ data, ret (IsOther data))) _).
  - apply (NoDup_cons_2 "head" ["tail"]); [|apply (NoDup_singleton "tail")].
    intros H. apply list_elem_of_In in H. simpl in H. destruct H as [H|[]].
    discriminate H.
  - apply list_elem_of_further, list_elem_of_here.
Defined.

(** * An exception whose text cannot be taken *)

(** X20. The handler itself can fail: when the tests before some test
    completed and that test's callable raises an instance of [Exception]
    whose [__str__] raises, building the message raises inside the [except]
    block, so [run_diagnostics] raises what [__str__] raised, in the state
    the callable left; no result is appended for the test and the tests
    registered after it are not run. *)
Theorem failing_str_stops_the_run (registry : DiagnosticsRegistry) (system : string)
    (data : Any) (pre post : list TestInfo) (test_info : TestInfo)
    (rs : list DiagnosticResult) (w w1 w2 : World) (e e' : PyExc) :
  get_tests registry system = pre ++ test_info :: post →
  run_tests pre data [] w = (Return rs, w1) →
  test_info_fn test_info data w1 = (Raise e, w2) →
  isinstance_Exception e = true →
  exc_str_raises e = Some e' →
  run_diagnostics registry system data w = (Raise e', w2).
Proof.
  intros Htests Hpre Hfn He Hs. unfold run_diagnostics. rewrite Htests.
  unfold bind at 1. rewrite run_tests_app. unfold bind at 1. rewrite Hpre.
  simpl. unfold bind at 1.
  by rewrite (run_test_str_raises _ _ _ _ _ _ _ Hfn He Hs).
Qed.

Lemma failing_str_stops_the_run_witness :
  run_diagnostics unprintable_then_pass "s" PyNone sample_world
  = (Raise (mkExc (ExceptionSubclass "IndexError") "list index out of range"),
     tick sample_world).
Proof.
  exact (failing_str_stops_the_run unprintable_then_pass "s" PyNone
           [mkTestInfo "first" "" (returns_result "first" PASS "ok")]
           [mkTestInfo "third" "" (returns_result "third" PASS "ok")]
           (mkTestInfo "second" ""
              (λ _, raise (BuildExc (ExceptionSubclass "Boom") ""
                             (Some (mkExc (ExceptionSubclass "IndexError")
                                      "list index out of range")))))
           [mkResult "first" PASS "ok" [] 0%Z]
           sample_world (tick sample_world) (tick sample_world)
           (BuildExc (ExceptionSubclass "Boom") ""
              (Some (mkExc (ExceptionSubclass "IndexError") "list index out of range")))
           (mkExc (ExceptionSubclass "IndexError") "list index out of range")
           eq_refl eq_refl eq_refl eq_refl eq_refl).
Defined.
